(** * Invoice generator: [generate_invoice] of app.py

    A shallow embedding of the invoice computation and of the drawing calls
    that [generate_invoice] issues on its ReportLab canvas, with the
    properties of the totals, of the table rows and of the failure
    behaviour that the specification states about them.

    Layout of the file:
    - text helpers ([str], zero padding, two-decimal rendering);
    - [PyNumber]: the numeric protocol the function relies on (it is
      duck-typed over its number arguments), with two instances, binary64
      floats (what the form passes) and exact rationals (Python's
      [fractions.Fraction]);
    - the canvas, the clock and the small state-and-exception monad the
      function body is written in;
    - [generate_invoice] itself, the vocabulary of the statements and the
      sample inputs;
    - the properties: closed forms of the loop and of the call, then the
      statements about totals, rows and failures, then concrete runs. *)

From Stdlib Require Import ZArith QArith Qcanon Qround Floats.
From Stdlib Require Import String Ascii List Permutation Lia DecimalString.
Import ListNotations.

Local Open Scope list_scope.
Local Open Scope string_scope.

(** ** Text helpers *)

(** [str(n)] for a Python [int]. *)
Definition str_Z (z : Z) : string := NilZero.string_of_int (Z.to_int z).

Definition str_nat (n : nat) : string := str_Z (Z.of_nat n).

(** A string of [n] zeros. *)
Fixpoint zeros (n : nat) : string :=
  match n with
  | O => ""
  | S k => "0" ++ zeros k
  end.

(** [n] written with at least [w] digits, padded with zeros on the left
    (the [%02d]-style fields of [strftime]). *)
Definition zpad (w : nat) (n : nat) : string :=
  let s := str_nat n in
  zeros (w - String.length s) ++ s.

(** Rounding of the non-negative quotient [n / d] to the nearest integer,
    ties to the even one. *)
Definition round_half_even (n : Z) (d : positive) : Z :=
  let q := (n / Zpos d)%Z in
  let r := (n mod Zpos d)%Z in
  match (2 * r ?= Zpos d)%Z with
  | Lt => q
  | Gt => (q + 1)%Z
  | Eq => if Z.even q then q else (q + 1)%Z
  end.

(** A sign and a count of hundredths written with two decimals:
    [fixed2 false 29500 = "295.00"]. *)
Definition fixed2 (neg : bool) (hundredths : Z) : string :=
  (if neg then "-" else "") ++
  str_Z (hundredths / 100) ++ "." ++ zpad 2 (Z.to_nat (hundredths mod 100)).

(** ** The numeric protocol

    [generate_invoice] never names a number type: it multiplies an [int]
    quantity by a price, adds into a counter that starts at the [int] [0],
    divides by the [int] [100], and formats with [:.2f] and with [str].
    [PyNumber] lists exactly these operations.  [of_int] is the coercion
    Python applies to the [int] operand of a mixed operation; [fits z]
    tells whether that coercion succeeds ([float(z)] raises
    [OverflowError] when [z] is beyond the range of a double). *)
Class PyNumber (num : Type) : Type := {
  fits : Z -> bool;
  of_int : Z -> num;
  add : num -> num -> num;
  mul : num -> num -> num;
  div : num -> num -> num;
  format_2f : num -> string;
  py_str : num -> string
}.

(** *** Instance 1: binary64 floats

    Python's [float] is IEEE 754 binary64 with round-to-nearest-even, which
    is what Rocq's primitive floats are. *)
Module Float64.

(** [float(z)]: the nearest double, ties to even. *)
Definition float_of_int (z : Z) : float :=
  SF2Prim (binary_normalize prec emax z 0 false).

(** [float(z)] raises [OverflowError] exactly when [z] rounds to
    [2^1024], that is from [2^1024 - 2^970] on. *)
Definition fits_float (z : Z) : bool :=
  (Z.abs z <? 2 ^ 1024 - 2 ^ 970)%Z.

(** The exact value [m * 2^e] of a finite double. *)
Definition exact (m : positive) (e : Z) : Q :=
  (inject_Z (Zpos m) * Qpower 2 e)%Q.

(** [f"{x:.2f}"]: the exact binary value, correctly rounded to two
    decimals (ties to even); the sign is kept on a result that rounds
    to zero. *)
Definition format_2f_float (x : float) : string :=
  match Prim2SF x with
  | S754_zero s => fixed2 s 0
  | S754_infinity s => if s then "-inf" else "inf"
  | S754_nan => "nan"
  | S754_finite s m e =>
      let h := (exact m e * 100)%Q in
      fixed2 s (round_half_even (Qnum h) (Qden h))
  end.

(** *** [repr]: the shortest decimal string that reads back as [x] *)

Definition Qltb (a b : Q) : bool := negb (Qle_bool b a).

(** The decimal point position [D] of a positive rational:
    [10^(D-1) <= v < 10^D]. *)
Fixpoint decpt_from (fuel : nat) (D : Z) (v : Q) : Z :=
  match fuel with
  | O => D
  | S k => if Qle_bool (Qpower 10 (D - 1)) v then D
           else decpt_from k (D - 1)%Z v
  end.

Definition decpt (v : Q) : Z := decpt_from 640 309 v.

(** Whether the rational [q] rounds to the double [m * 2^e]: the interval
    reaches half way to each neighbour and is closed when [m] is even.
    Below a power of two the lower neighbour is twice as close. *)
Definition rounds_to (m : positive) (e : Z) (q : Q) : bool :=
  let v := exact m e in
  let up := Qpower 2 (e - 1) in
  let down := if ((Zpos m =? 2 ^ 52) && (-1074 <? e))%Z%bool
              then Qpower 2 (e - 2) else up in
  if Z.even (Zpos m)
  then (Qle_bool (v - down) q && Qle_bool q (v + up))%Q%bool
  else (Qltb (v - down) q && Qltb q (v + up))%Q%bool.

(** The [k]-digit decimal closest to [m * 2^e] among those that round to
    it, as a digit count [c] scaled by [10^(D-k)]. *)
Definition candidate (m : positive) (e : Z) (D : Z) (k : Z) : option Z :=
  let v := exact m e in
  let unit := Qpower 10 (D - k) in
  let c1 := Qfloor (v / unit)%Q in
  let c2 := (c1 + 1)%Z in
  let q1 := (inject_Z c1 * unit)%Q in
  let q2 := (inject_Z c2 * unit)%Q in
  match rounds_to m e q1, rounds_to m e q2 with
  | true, true =>
      match ((v - q1) ?= (q2 - v))%Q with
      | Lt => Some c1
      | Gt => Some c2
      | Eq => Some (if Z.even c1 then c1 else c2)
      end
  | true, false => Some c1
  | false, true => Some c2
  | false, false => None
  end.

(** The shortest digits: the first [k] from [k] upward with a candidate. *)
Fixpoint shortest (fuel : nat) (m : positive) (e : Z) (D : Z) (k : Z)
  : Z * Z :=
  match fuel with
  | O => (Qfloor (exact m e / Qpower 10 (D - k))%Q, k)
  | S f =>
      match candidate m e D k with
      | Some c => (c, k)
      | None => shortest f m e D (k + 1)%Z
      end
  end.

(** Trailing zeros removed from a positive digit count. *)
Fixpoint strip_zeros (fuel : nat) (c : Z) : Z :=
  match fuel with
  | O => c
  | S f => if ((c mod 10 =? 0) && (0 <? c))%Z%bool
           then strip_zeros f (c / 10)%Z else c
  end.

(** The digits [ds] with the point after the first [D] of them, written
    the way [repr] does: exponent form when [D <= -4] or [D > 16]. *)
Definition place_point (ds : string) (D : Z) : string :=
  let n := Z.of_nat (String.length ds) in
  if ((D <=? -4) || (16 <? D))%Z%bool then
    let x := (D - 1)%Z in
    substring 0 1 ds ++
    (if (1 <? n)%Z then "." ++ substring 1 (String.length ds - 1) ds else "") ++
    "e" ++ (if (x <? 0)%Z then "-" else "+") ++ zpad 2 (Z.abs_nat x)
  else if (D <=? 0)%Z then
    "0." ++ zeros (Z.abs_nat D) ++ ds
  else if (D <? n)%Z then
    substring 0 (Z.to_nat D) ds ++ "." ++
    substring (Z.to_nat D) (String.length ds - Z.to_nat D) ds
  else
    ds ++ zeros (Z.to_nat (D - n)) ++ ".0".

(** [str(x)] (the same as [repr(x)]) for a float. *)
Definition repr (x : float) : string :=
  match Prim2SF x with
  | S754_zero s => if s then "-0.0" else "0.0"
  | S754_infinity s => if s then "-inf" else "inf"
  | S754_nan => "nan"
  | S754_finite s m e =>
      let D := decpt (exact m e) in
      let '(c, k) := shortest 17 m e D 1 in
      (* [c] has [k] digits, or is [10^k] *)
      let D' := if (c =? 10 ^ k)%Z then (D + 1)%Z else D in
      let ds := str_Z (strip_zeros 20 c) in
      (if s then "-" else "") ++ place_point ds D'
  end.

End Float64.

#[export] Instance PyFloat : PyNumber float := {|
  fits := Float64.fits_float;
  of_int := Float64.float_of_int;
  add := PrimFloat.add;
  mul := PrimFloat.mul;
  div := PrimFloat.div;
  format_2f := Float64.format_2f_float;
  py_str := Float64.repr
|}.

(** *** Instance 2: exact rationals

    [fractions.Fraction]: numerator and denominator in lowest terms, every
    [int] converts, arithmetic is exact. *)
Module Fraction.

Definition frac_of_int (z : Z) : Qc := Q2Qc (inject_Z z).

(** [format(x, ".2f")] rounds the exact value to two decimals, ties to
    even, and keeps the sign of [x]. *)
Definition format_2f_frac (x : Qc) : string :=
  let q := this x in
  fixed2 (Qnum q <? 0)%Z
         (round_half_even (Z.abs (Qnum q) * 100) (Qden q)).

(** [str(x)]: ["n"] for an integer, ["n/d"] otherwise. *)
Definition str_frac (x : Qc) : string :=
  let q := this x in
  match Qden q with
  | xH => str_Z (Qnum q)
  | d => str_Z (Qnum q) ++ "/" ++ str_Z (Zpos d)
  end.

End Fraction.

#[export] Instance PyFraction : PyNumber Qc := {|
  fits := fun _ => true;
  of_int := Fraction.frac_of_int;
  add := Qcplus;
  mul := Qcmult;
  div := Qcdiv;
  format_2f := Fraction.format_2f_frac;
  py_str := Fraction.str_frac
|}.

(** ** The page: canvas calls, table and style *)

(** [l.append(x)] on a Python list. *)
Definition py_append {A : Type} (l : list A) (x : A) : list A :=
  (l ++ [x])%list.

Inductive color : Type :=
| black
| whitesmoke
| HexColor (code : string).

(** A cell address [(column, row)] of a [TableStyle] command; negative
    numbers count from the end. *)
Definition cell : Type := (Z * Z)%type.

Inductive style_cmd : Type :=
| BACKGROUND (start stop : cell) (c : color)
| TEXTCOLOR (start stop : cell) (c : color)
| ALIGN (start stop : cell) (how : string)
| FONTNAME (start stop : cell) (font : string)
| BOTTOMPADDING (start stop : cell) (pad : Z)
| GRID (start stop : cell) (width : Z) (c : color)
| LINEBELOW (start stop : cell) (width : Z) (c : color)
| LINEABOVE (start stop : cell) (width : Z) (c : color).

(** [Table(data, colWidths=...)] after [setStyle]. *)
Record Table : Type := {
  rows : list (list string);
  colWidths : list Z;
  style : list style_cmd
}.

(** The calls made on the canvas, in the order they are made.  The page
    that [pdf.save()] writes into the buffer is determined by this
    sequence; the PDF encoding itself belongs to ReportLab. *)
Inductive canvas_op : Type :=
| setStrokeColor (c : color)
| setLineWidth (w : Z)
| rect (x y : Z) (width : Q) (height : Z)
| drawImage (path : string) (x y width height : Z)
| setFont (name : string) (size : Z)
| drawString (x y : Z) (text : string)
| wrapOn (t : Table) (availWidth availHeight : Z)
| drawOn (t : Table) (x y : Z).

Definition document : Type := list canvas_op.

(** ** The clock *)

Record datetime : Type := {
  year : nat; month : nat; day : nat;
  hour : nat; minute : nat; second : nat
}.

(** [strftime('%Y-%m-%d')] (years of four digits, as the clock gives). *)
Definition strftime_date (t : datetime) : string :=
  zpad 4 (year t) ++ "-" ++ zpad 2 (month t) ++ "-" ++ zpad 2 (day t).

(** [strftime('%H:%M:%S')]. *)
Definition strftime_time (t : datetime) : string :=
  zpad 2 (hour t) ++ ":" ++ zpad 2 (minute t) ++ ":" ++ zpad 2 (second t).

(** The wall clock as the program sees it: [clock n] is what the [n]-th
    call of [datetime.now()] returns, [reads] counts the calls made. *)
Record world : Type := {
  clock : nat -> datetime;
  reads : nat
}.

(** ** Exceptions and the monads of the function body *)

(** [OverflowError] is what Python raises when an [int] operand does not
    convert.  [OSError] is what [pdf.drawImage] raises when the file of
    the logo cannot be opened or is not an image (Pillow's
    [UnidentifiedImageError] is an [OSError]).  [InvalidInvoiceInput] and
    [LayoutOverflow] are the error names of the specification; no
    statement of app.py raises them. *)
Inductive exception : Type :=
| OverflowError
| OSError
| InvalidInvoiceInput
| LayoutOverflow.

(** A computation on local variables only: it returns or raises. *)
Definition result (A : Type) : Type := (exception + A)%type.

(** The state a call works on: its canvas and the clock. *)
Record state : Type := {
  pdf : document;
  wall : world
}.

Definition M (A : Type) : Type := state -> result (A * state).

Definition ret {A : Type} (a : A) : M A := fun s => inr (a, s).

Definition bind {A B : Type} (m : M A) (k : A -> M B) : M B :=
  fun s =>
    match m s with
    | inl e => inl e
    | inr (a, s') => k a s'
    end.

Definition rbind {A B : Type} (r : result A) (k : A -> result B) : result B :=
  match r with
  | inl e => inl e
  | inr a => k a
  end.

Declare Scope M_scope.
Delimit Scope M_scope with M.
Declare Scope result_scope.
Delimit Scope result_scope with result.

Notation "x <- m ;; k" := (bind m (fun x => k))
  (at level 61, m at next level, right associativity) : M_scope.
Notation "m ;; k" := (bind m (fun _ => k))
  (at level 61, right associativity) : M_scope.
Notation "x <- m ;; k" := (rbind m (fun x => k))
  (at level 61, m at next level, right associativity) : result_scope.

(** A computation on local variables run inside the call. *)
Definition lift {A : Type} (r : result A) : M A :=
  fun s =>
    match r with
    | inl e => inl e
    | inr a => inr (a, s)
    end.

(** An exception raised inside the call: the canvas is lost. *)
Definition raise {A : Type} (e : exception) : M A := fun _ => inl e.

(** One call on the canvas. *)
Definition emit (op : canvas_op) : M unit :=
  fun s => inr (tt, {| pdf := py_append (pdf s) op; wall := wall s |}).

(** [datetime.now()]: the next reading of the clock. *)
Definition now : M datetime :=
  fun s =>
    let w := wall s in
    inr (clock w (reads w),
         {| pdf := pdf s;
            wall := {| clock := clock w; reads := S (reads w) |} |}).

(** [pdf.save(); buffer.seek(0)]: the finished page. *)
Definition save : M document := fun s => inr (pdf s, s).

(** [buffer = BytesIO(); pdf = canvas.Canvas(buffer, pagesize=A4)], then
    the body; an exception leaves the caller without a buffer. *)
Definition on_new_canvas {A : Type} (body : M A) (w : world)
  : result (A * world) :=
  match body {| pdf := []; wall := w |} with
  | inl e => inl e
  | inr (a, s) => inr (a, wall s)
  end.

(** ** [generate_invoice] *)

Section Invoice.

Context {num : Type} `{PyNumber num}.

(** [reportlab.lib.pagesizes.A4], a constant of the library: (width,
    height) of the page in points. *)
Variable A4 : Q * Q.

(** The files as [pdf.drawImage] finds them: whether the file at a path
    opens and decodes as an image. *)
Variable readable_image : string -> bool.

(** An entry of [items]: [(item_name, qty, price)], [qty] an [int]. *)
Definition item : Type := (string * Z * num)%type.

(** The margins set at the top of the function. *)
Definition left_margin : Z := 50.
Definition top_margin : Z := 600.
Definition bottom_margin : Z := 50.

(** The [int] operand of a mixed operation, converted. *)
Definition coerce (z : Z) : result num :=
  if fits z then inr (of_int z) else inl OverflowError.

(** [qty * price]. *)
Definition line_total (qty : Z) (price : num) : num :=
  mul (of_int qty) price.

(** The row appended for one item. *)
Definition item_row (it : item) : list string :=
  let '(item_name, qty, price) := it in
  [item_name; str_Z qty; format_2f price; format_2f (line_total qty price)].

(** The loop [for item in items], on the locals [data] and
    [total_amount]. *)
Fixpoint for_items (items : list item) (data : list (list string))
  (total_amount : num) : result (list (list string) * num) :=
  match items with
  | [] => inr (data, total_amount)
  | (item_name, qty, price) :: rest =>
      (q <- coerce qty ;;
       let total_price := mul q price in
       let data := py_append data [item_name; str_Z qty; format_2f price;
                                   format_2f total_price] in
       let total_amount := add total_amount total_price in
       for_items rest data total_amount)%result
  end.

(** The locals once the table rows are complete. *)
Record locals : Type := {
  data : list (list string);
  total_amount : num;
  tax_amount : num;
  grand_total : num
}.

Definition header_row (currency : string) : list string :=
  ["Item"; "Quantity"; "Unit Price (" ++ currency ++ ")";
   "Total Price (" ++ currency ++ ")"].

(** The table header, the item loop, the tax and grand total and the three
    closing rows.  [total_amount] starts as the [int] [0]; every use of
    it converts that [0] ([0 + x], [0 * x], [f"{0:.2f}"]), so it is held
    here converted from the start. *)
Definition invoice_table (items : list item) (currency : string)
  (tax_percentage : num) : result locals :=
  (let data := [header_row currency] in
   let total_amount := of_int 0 in
   r <- for_items items data total_amount ;;
   let '(data, total_amount) := r in
   let tax_amount := div (mul total_amount tax_percentage) (of_int 100) in
   let grand_total := add total_amount tax_amount in
   let data := py_append data
                 [""; ""; "Subtotal:";
                  currency ++ " " ++ format_2f total_amount] in
   let data := py_append data
                 [""; ""; "Tax (" ++ py_str tax_percentage ++ "%):";
                  currency ++ " " ++ format_2f tax_amount] in
   let data := py_append data
                 [""; ""; "Grand Total:";
                  currency ++ " " ++ format_2f grand_total] in
   inr {| data := data; total_amount := total_amount;
          tax_amount := tax_amount; grand_total := grand_total |})%result.

(** The [TableStyle] of the invoice table. *)
Definition invoice_style : list style_cmd :=
  [ BACKGROUND (0, 0) (-1, 0) (HexColor "#4CAF50");
    TEXTCOLOR (0, 0) (-1, 0) whitesmoke;
    ALIGN (0, 0) (-1, -1) "CENTER";
    FONTNAME (0, 0) (-1, 0) "Helvetica-Bold";
    BOTTOMPADDING (0, 0) (-1, 0) 12;
    BACKGROUND (0, 1) (-1, -3) (HexColor "#F0F0F0");
    GRID (0, 0) (-1, -1) 1 black;
    LINEBELOW (0, 0) (-1, 0) 1 black;
    LINEABOVE (0, -3) (-1, -3) 1 black;
    LINEABOVE (0, -1) (-1, -1) 1 black ]%Z.

Definition invoice_Table (data : list (list string)) : Table :=
  {| rows := data; colWidths := [200; 80; 100; 100]%Z;
     style := invoice_style |}.

(** Where the table is drawn: [top_margin - 250 - len(items) * 20]. *)
Definition table_y (items : list item) : Z :=
  (top_margin - 250 - Z.of_nat (length items) * 20)%Z.

(** [if logo_path:] holds for a path that is neither [None] nor empty. *)
Definition truthy (logo_path : option string) : bool :=
  match logo_path with
  | Some p => negb (String.eqb p "")
  | None => false
  end.

(** [if logo_path: pdf.drawImage(logo_path, ...)]: the image is opened
    and decoded when it is drawn, so a file that is missing or is not an
    image ends the call there. *)
Definition draw_logo (logo_path : option string) : M unit :=
  match logo_path with
  | Some p =>
      if truthy logo_path
      then
        if readable_image p
        then emit (drawImage p left_margin (top_margin - 50) 100 50)
        else raise OSError
      else ret tt
  | None => ret tt
  end.

(** The function body, statement by statement. *)
Definition generate_invoice_body
  (company_name customer_name customer_email : string) (items : list item)
  (currency : string) (tax_percentage : num) (logo_path : option string)
  : M document :=
  (emit (setStrokeColor black) ;;
   emit (setLineWidth 2) ;;
   emit (rect (left_margin - 10) (bottom_margin - 10)
              (fst A4 - inject_Z left_margin - 50)%Q
              (top_margin - bottom_margin + 20)) ;;
   draw_logo logo_path ;;
   emit (setFont "Helvetica-Bold" 18) ;;
   emit (drawString left_margin top_margin ("Invoice - " ++ company_name)) ;;
   emit (setFont "Helvetica" 12) ;;
   emit (drawString left_margin (top_margin - 60)
                    ("Customer: " ++ customer_name)) ;;
   emit (drawString left_margin (top_margin - 80)
                    ("Email: " ++ customer_email)) ;;
   d <- now ;;
   emit (drawString (left_margin + 300) top_margin
                    ("Invoice Date: " ++ strftime_date d)) ;;
   t <- now ;;
   emit (drawString (left_margin + 300) (top_margin - 20)
                    ("Purchase Time: " ++ strftime_time t)) ;;
   l <- lift (invoice_table items currency tax_percentage) ;;
   let table := invoice_Table (data l) in
   emit (wrapOn table left_margin (top_margin - 250)) ;;
   emit (drawOn table left_margin (table_y items)) ;;
   emit (setFont "Helvetica" 10) ;;
   emit (drawString left_margin (bottom_margin + 20)
                    "Thank you for your business!") ;;
   emit (drawString left_margin bottom_margin
                    "Terms & Conditions: Payment due within 30 days.") ;;
   save)%M%Z.

(** [generate_invoice(...)] called when the clock is in state [w]: the
    returned buffer (as the page drawn into it) and the clock afterwards,
    or the exception raised. *)
Definition generate_invoice
  (company_name customer_name customer_email : string) (items : list item)
  (currency : string) (tax_percentage : num) (logo_path : option string)
  (w : world) : result (document * world) :=
  on_new_canvas
    (generate_invoice_body company_name customer_name customer_email items
                           currency tax_percentage logo_path) w.

(** ** Vocabulary of the statements *)

Definition qty_of (it : item) : Z := snd (fst it).
Definition price_of (it : item) : num := snd it.

(** Every quantity of the list converts to the number type. *)
Definition all_fit (items : list item) : bool :=
  forallb (fun it => fits (qty_of it)) items.

(** The line totals [qty * price], unrounded, in input order. *)
Definition line_totals (items : list item) : list num :=
  map (fun it => line_total (qty_of it) (price_of it)) items.

(** Left-to-right accumulation from a starting value, at the precision of
    the number type. *)
Definition running_sum (xs : list num) (start : num) : num :=
  fold_left add xs start.

(** The sum of the specification, [Σ x_i], with [0] for the empty sum. *)
Fixpoint Sigma (xs : list num) : num :=
  match xs with
  | [] => of_int 0
  | x :: rest => add x (Sigma rest)
  end.

(** The three closing rows for given totals. *)
Definition summary_rows (currency : string) (tax_percentage : num)
  (subtotal tax grand : num) : list (list string) :=
  [ [""; ""; "Subtotal:"; currency ++ " " ++ format_2f subtotal];
    [""; ""; "Tax (" ++ py_str tax_percentage ++ "%):";
     currency ++ " " ++ format_2f tax];
    [""; ""; "Grand Total:"; currency ++ " " ++ format_2f grand] ].

(** The rows of a table between its first row and its last three. *)
Definition item_rows_of (rows : list (list string)) : list (list string) :=
  firstn (length rows - 4) (skipn 1 rows).

(** The last three rows of a table. *)
Definition closing_rows_of (rows : list (list string)) : list (list string) :=
  skipn (length rows - 3) rows.

(** The logo does not stop the call: none is given, or the path is
    empty, or its file can be read as an image. *)
Definition logo_readable (logo_path : option string) : bool :=
  match logo_path with
  | Some p => if truthy logo_path then readable_image p else true
  | None => true
  end.

(** One more reading taken from the clock. *)
Definition tick (w : world) : world :=
  {| clock := clock w; reads := S (reads w) |}.

(** The page as a list: what the body draws when the two clock readings
    are [d] and [t] and the table rows are [rows]. *)
Definition page (company_name customer_name customer_email : string)
  (logo_path : option string) (d t : datetime) (rows : list (list string))
  (y : Z) : document :=
  ([ setStrokeColor black; setLineWidth 2;
     rect 40 40 (fst A4 - inject_Z 50 - 50)%Q 570 ] ++
   match logo_path with
   | Some p => if truthy logo_path then [drawImage p 50 550 100 50] else []
   | None => []
   end ++
   [ setFont "Helvetica-Bold" 18;
     drawString 50 600 ("Invoice - " ++ company_name);
     setFont "Helvetica" 12;
     drawString 50 540 ("Customer: " ++ customer_name);
     drawString 50 520 ("Email: " ++ customer_email);
     drawString 350 600 ("Invoice Date: " ++ strftime_date d);
     drawString 350 580 ("Purchase Time: " ++ strftime_time t);
     wrapOn (invoice_Table rows) 50 350;
     drawOn (invoice_Table rows) 50 y;
     setFont "Helvetica" 10;
     drawString 50 70 "Thank you for your business!";
     drawString 50 50 "Terms & Conditions: Payment due within 30 days."
   ])%list%Z.

(** The page of a returned buffer, without the clock. *)
Definition returned_page (r : result (document * world)) : result document :=
  match r with
  | inl e => inl e
  | inr (doc, _) => inr doc
  end.

(** Exact arithmetic: every [int] converts, and addition is associative
    and commutative with the converted [0] as its unit.  Rationals have
    it; binary64 floats do not. *)
Class ExactArith : Prop := {
  every_int_fits : forall z, fits z = true;
  add_comm : forall x y : num, add x y = add y x;
  add_assoc : forall x y z : num, add x (add y z) = add (add x y) z;
  add_0_l : forall x : num, add (of_int 0) x = x
}.

End Invoice.

Arguments item num : clear implicits.
Arguments locals num : clear implicits.
Arguments ExactArith num {_}.

(** ** Sample inputs *)

(** A4 in points: 210 mm by 297 mm, at 72 points to the inch. *)
Definition A4_points : Q * Q := (75600 # 127, 106920 # 127)%Q.

Definition last_second_of_2024 : datetime :=
  {| year := 2024; month := 12; day := 31;
     hour := 23; minute := 59; second := 59 |}.

Definition first_second_of_2025 : datetime :=
  {| year := 2025; month := 1; day := 1;
     hour := 0; minute := 0; second := 0 |}.

(** A clock that passes midnight between its first and second reading. *)
Definition midnight_clock : world :=
  {| clock := fun n => match n with
                       | O => last_second_of_2024
                       | _ => first_second_of_2025
                       end;
     reads := 0 |}.

(** Another clock, read three times already, whose next two readings are
    the same two instants and whose later readings differ. *)
Definition other_clock : world :=
  {| clock := fun n => match n with
                       | 3%nat => last_second_of_2024
                       | 4%nat => first_second_of_2025
                       | _ => last_second_of_2024
                       end;
     reads := 3 |}.

(** The items of the specification's example, as the form passes them. *)
Definition widget_gadget : list (item float) :=
  [ ("Widget", 2%Z, 50%float); ("Gadget", 1%Z, 150%float) ].

(** The same items as exact rationals, and in the other order. *)
Definition widget_gadget_exact : list (item Qc) :=
  [ ("Widget", 2%Z, Fraction.frac_of_int 50);
    ("Gadget", 1%Z, Fraction.frac_of_int 150) ].

Definition gadget_widget_exact : list (item Qc) :=
  [ ("Gadget", 1%Z, Fraction.frac_of_int 150);
    ("Widget", 2%Z, Fraction.frac_of_int 50) ].

(** Three lines of 0.335 each: every line shows 0.34, the subtotal 1.005
    shows 1.00. *)
Definition three_pens : list (item Qc) :=
  repeat ("Pen", 1%Z,
          (Fraction.frac_of_int 335 / Fraction.frac_of_int 1000)%Qc) 3.

Definition sixteen_items : list (item float) :=
  repeat ("Item", 1%Z, 10%float) 16.

(** ** The table style, resolved

    ReportLab reads the cell addresses of a style command the way Python
    reads indices: a negative row or column counts from the end. *)

Definition resolve_index (n i : Z) : Z :=
  if (i <? 0)%Z then (n + i)%Z else i.

(** The two corners of a style command. *)
Definition cmd_corners (c : style_cmd) : cell * cell :=
  match c with
  | BACKGROUND a b _ | TEXTCOLOR a b _ | ALIGN a b _ | FONTNAME a b _
  | BOTTOMPADDING a b _ | GRID a b _ _ | LINEBELOW a b _ _
  | LINEABOVE a b _ _ => (a, b)
  end.

(** The first and last row a style command covers in a table of [nrows]
    rows. *)
Definition rows_spanned (nrows : Z) (c : style_cmd) : Z * Z :=
  let '(a, b) := cmd_corners c in
  (resolve_index nrows (snd a), resolve_index nrows (snd b)).

(** ** The form: collecting the items and the Generate button

    The script reads its inputs from widgets.  [form] holds what the
    widgets return in one run of the script: the text inputs, the select
    box, the number inputs, the uploaded file, and whether the button was
    pressed.  The item widgets are keyed by their index ([name{i}],
    [qty{i}], [price{i}]). *)

Record form (num : Type) : Type := {
  f_company_name : string;
  f_customer_name : string;
  f_customer_email : string;
  f_currency : string;
  f_tax_percentage : num;
  f_logo : option (list Byte.byte);
  f_num_items : nat;
  f_item_name : nat -> string;
  f_qty : nat -> Z;
  f_price : nat -> num;
  f_button : bool
}.

Arguments f_company_name {num} _.
Arguments f_customer_name {num} _.
Arguments f_customer_email {num} _.
Arguments f_currency {num} _.
Arguments f_tax_percentage {num} _.
Arguments f_logo {num} _.
Arguments f_num_items {num} _.
Arguments f_item_name {num} _ _.
Arguments f_qty {num} _ _.
Arguments f_price {num} _ _.
Arguments f_button {num} _.

(** What the handler of the button does besides reading the clock, in
    order.  Strings are byte strings, so the label of the download button
    is its UTF-8 encoding. *)
Inductive app_effect : Type :=
| write_file (path : string) (content : list Byte.byte)
| st_success (msg : string)
| st_download_button (label : string) (data : document)
                     (file_name mime : string)
| st_error (msg : string).

Section Form.

Context {num : Type} `{PyNumber num}.
Variable A4 : Q * Q.

(** Whether the bytes of an uploaded file decode as an image (Pillow's
    work, when ReportLab draws the logo). *)
Variable decodes : list Byte.byte -> bool.

(** The files before the run. *)
Variable readable_image : string -> bool.

(** The files once [content] is written to [temp_logo.png]. *)
Definition after_saving (content : list Byte.byte) : string -> bool :=
  fun path =>
    if String.eqb path "temp_logo.png" then decodes content
    else readable_image path.

(** The uploaded file, if any, decodes as an image. *)
Definition upload_ok (f : form num) : bool :=
  match f_logo f with
  | Some content => decodes content
  | None => true
  end.

(** The item of the widgets of index [i]. *)
Definition widget_item (f : form num) (i : nat) : item num :=
  (f_item_name f i, f_qty f i, f_price f i).

(** [for i in range(num_items): ... items.append((item_name, qty,
    price))], from index [i] on, [count] rounds to go. *)
Fixpoint collect_from (f : form num) (i count : nat)
  (items : list (item num)) : list (item num) :=
  match count with
  | O => items
  | S k =>
      collect_from f (S i) k
                   (py_append items (f_item_name f i, f_qty f i, f_price f i))
  end.

(** [items] as the script builds it. *)
Definition collect_items (f : form num) : list (item num) :=
  collect_from f 0 (f_num_items f) [].

(** A Python string in a condition: true unless empty. *)
Definition nonempty (s : string) : bool := negb (String.eqb s "").

(** The block under [if st.sidebar.button("Generate Invoice")]: the
    effects made, in order, and then the clock after the block or the
    exception that ends the run.  The uploaded logo is written to
    [temp_logo.png] before [generate_invoice] is called, which then reads
    that file. *)
Definition on_generate_click (f : form num) (w : world)
  : list app_effect * result world :=
  if f_button f then
    if (nonempty (f_customer_name f) && nonempty (f_customer_email f))%bool
    then
      let saved :=
        match f_logo f with
        | Some content => [write_file "temp_logo.png" content]
        | None => []
        end in
      let logo_path :=
        match f_logo f with
        | Some _ => Some "temp_logo.png"
        | None => None
        end in
      let files :=
        match f_logo f with
        | Some content => after_saving content
        | None => readable_image
        end in
      match generate_invoice A4 files (f_company_name f)
                             (f_customer_name f) (f_customer_email f)
                             (collect_items f) (f_currency f)
                             (f_tax_percentage f) logo_path w with
      | inl e => (saved, inl e)
      | inr (pdf_file, w') =>
          ((saved ++
            [ st_success "Invoice generated successfully!";
              st_download_button "📥 Download Invoice" pdf_file
                                 "invoice.pdf" "application/pdf" ])%list,
           inr w')
      end
    else ([st_error "Please enter customer details."], inr w)
  else ([], inr w).

(** Whether a download is offered among the effects. *)
Definition offers_download (effects : list app_effect) : bool :=
  existsb (fun e => match e with
                    | st_download_button _ _ _ _ => true
                    | _ => false
                    end) effects.

(** Whether a file is written among the effects. *)
Definition writes_a_file (effects : list app_effect) : bool :=
  existsb (fun e => match e with
                    | write_file _ _ => true
                    | _ => false
                    end) effects.

End Form.

(** A double that is neither infinite nor a NaN. *)
Definition finite_float (x : float) : bool :=
  match Prim2SF x with
  | S754_zero _ | S754_finite _ _ _ => true
  | S754_infinity _ | S754_nan => false
  end.

(** ** More sample inputs *)

(** A file system with no image in it. *)
Definition no_images : string -> bool := fun _ => false.

(** A file system whose one image is [logo.png]. *)
Definition logo_on_disk : string -> bool :=
  fun path => String.eqb path "logo.png".

(** A PNG file of one white pixel (signature, IHDR, IDAT, IEND). *)
Definition tiny_png : list Byte.byte :=
  [ Byte.x89; Byte.x50; Byte.x4e; Byte.x47; Byte.x0d; Byte.x0a; Byte.x1a;
    Byte.x0a; Byte.x00; Byte.x00; Byte.x00; Byte.x0d; Byte.x49; Byte.x48;
    Byte.x44; Byte.x52; Byte.x00; Byte.x00; Byte.x00; Byte.x01; Byte.x00;
    Byte.x00; Byte.x00; Byte.x01; Byte.x08; Byte.x02; Byte.x00; Byte.x00;
    Byte.x00; Byte.x90; Byte.x77; Byte.x53; Byte.xde; Byte.x00; Byte.x00;
    Byte.x00; Byte.x0c; Byte.x49; Byte.x44; Byte.x41; Byte.x54; Byte.x78;
    Byte.xda; Byte.x63; Byte.xf8; Byte.xff; Byte.xff; Byte.x3f; Byte.x00;
    Byte.x05; Byte.xfe; Byte.x02; Byte.xfe; Byte.x33; Byte.x12; Byte.x95;
    Byte.x14; Byte.x00; Byte.x00; Byte.x00; Byte.x00; Byte.x49; Byte.x45;
    Byte.x4e; Byte.x44; Byte.xae; Byte.x42; Byte.x60; Byte.x82 ].

Fixpoint bytes_eqb (a b : list Byte.byte) : bool :=
  match a, b with
  | [], [] => true
  | x :: a', y :: b' => (Byte.eqb x y && bytes_eqb a' b')%bool
  | _, _ => false
  end.

(** A decoder known to accept that file and nothing else. *)
Definition decodes_tiny_png (content : list Byte.byte) : bool :=
  bytes_eqb content tiny_png.

(** A form filled in for two items, with a logo, the button pressed. *)
Definition filled_form : form float :=
  {| f_company_name := "Acme";
     f_customer_name := "Ann";
     f_customer_email := "ann@example.org";
     f_currency := "$";
     f_tax_percentage := 18%float;
     f_logo := Some tiny_png;
     f_num_items := 2;
     f_item_name := fun i => match i with O => "Widget" | _ => "Gadget" end;
     f_qty := fun i => match i with O => 2%Z | _ => 1%Z end;
     f_price := fun i => match i with O => 50%float | _ => 150%float end;
     f_button := true |}.

(** Items of a valid invoice in exact arithmetic: 3 at 19.99 and 1 at
    0.05. *)
Definition valid_exact_items : list (item Qc) :=
  [ ("Cable", 3%Z, (Fraction.frac_of_int 1999 / Fraction.frac_of_int 100)%Qc);
    ("Screw", 1%Z, (Fraction.frac_of_int 5 / Fraction.frac_of_int 100)%Qc) ].

(** * Properties *)

(** ** The two number types at work *)

(** What [:.2f] and [str] give on floats: ties go to the even digit of the
    exact binary value (0.125 shows 0.12, 0.375 shows 0.38; 2.675 is
    stored below the tie and shows 2.67), and [str] is the shortest
    string that reads back. *)
Example float_formatting :
  map format_2f
      [250; 45; 295; 0.125; 0.375; 0x1.5666666666666p+1; -0.5; 0]%float =
    ["250.00"; "45.00"; "295.00"; "0.12"; "0.38"; "2.67"; "-0.50"; "0.00"] /\
  map py_str
      [18; 7.25; 100; 0x1.999999999999ap-4; 0x1.3333333333334p-2;
       0x1.4f8b588e368f1p-17; 0x1.1c37937e08p+53; -0.5; 0]%float =
    ["18.0"; "7.25"; "100.0"; "0.1"; "0.30000000000000004";
     "1e-05"; "1e+16"; "-0.5"; "0.0"].
Proof. split; vm_compute; reflexivity. Qed.

(** The same on exact rationals: a tie is a tie of the value itself. *)
Example fraction_formatting :
  map format_2f
      [Fraction.frac_of_int 250;
       (Fraction.frac_of_int 335 / Fraction.frac_of_int 1000)%Qc;
       (Fraction.frac_of_int 1005 / Fraction.frac_of_int 1000)%Qc;
       (Fraction.frac_of_int (-1) / Fraction.frac_of_int 1000)%Qc] =
    ["250.00"; "0.34"; "1.00"; "-0.00"] /\
  map py_str
      [Fraction.frac_of_int 18;
       (Fraction.frac_of_int 15 / Fraction.frac_of_int 2)%Qc] =
    ["18"; "15/2"].
Proof. split; vm_compute; reflexivity. Qed.

(** The largest [int] that converts to a float, and the first that does
    not: the conversion of the former is the largest double, that of the
    latter would be infinite. *)
Example float_conversion_limit :
  fits (num := float) (2 ^ 1024 - 2 ^ 970 - 1) = true /\
  Prim2SF (of_int (num := float) (2 ^ 1024 - 2 ^ 970 - 1)) =
    S754_finite false (2 ^ 53 - 1) 971 /\
  fits (num := float) (2 ^ 1024 - 2 ^ 970) = false /\
  Prim2SF (Float64.float_of_int (2 ^ 1024 - 2 ^ 970)) = S754_infinity false.
Proof. repeat split; vm_compute; reflexivity. Qed.

(** Exact rationals are exact. *)
#[export] Instance Fraction_exact : ExactArith Qc.
Proof.
  split.
  - reflexivity.
  - exact Qcplus_comm.
  - exact Qcplus_assoc.
  - exact Qcplus_0_l.
Qed.

(** Every [int] that a double holds exactly, up to [2^53] in absolute
    value, converts. *)
Lemma small_int_fits_float (z : Z) :
  (Z.abs z <= 2 ^ 53)%Z -> fits (num := float) z = true.
Proof.
  intros Hz. apply Z.ltb_lt.
  apply Z.le_lt_trans with (2 ^ 53)%Z; [exact Hz | reflexivity].
Qed.

(** So every item list with such quantities goes through the loop. *)
Lemma small_quantities_fit_float (items : list (item float)) :
  Forall (fun it => (Z.abs (qty_of it) <= 2 ^ 53)%Z) items ->
  all_fit items = true.
Proof.
  intros Hall. unfold all_fit. apply forallb_forall. intros it Hin.
  apply small_int_fits_float.
  rewrite Forall_forall in Hall. exact (Hall it Hin).
Qed.

(** ** The item loop and the table *)

Section LoopFacts.

Context {num : Type} `{PyNumber num}.

Lemma coerce_fits (z : Z) : fits z = true -> coerce z = inr (of_int z).
Proof. unfold coerce. intros ->. reflexivity. Qed.

Lemma coerce_overflow (z : Z) : fits z = false -> coerce z = inl OverflowError.
Proof. unfold coerce. intros ->. reflexivity. Qed.

(** The loop, in closed form: it appends one row per item, in order, and
    adds the unrounded line totals to the counter from left to right; it
    raises [OverflowError] when a quantity does not convert. *)
Lemma for_items_closed (items : list (item num)) :
  forall (rows : list (list string)) (total : num),
    for_items items rows total =
    if all_fit items
    then inr ((rows ++ map item_row items)%list,
              running_sum (line_totals items) total)
    else inl OverflowError.
Proof.
  induction items as [| [[item_name qty] price] rest IH]; intros rows total.
  - simpl. rewrite app_nil_r. reflexivity.
  - simpl. unfold qty_of at 1. simpl.
    destruct (fits qty) eqn:Hq.
    + rewrite (coerce_fits _ Hq). simpl. rewrite IH.
      destruct (all_fit rest); [| reflexivity].
      unfold py_append. rewrite <- app_assoc. reflexivity.
    + rewrite (coerce_overflow _ Hq). reflexivity.
Qed.

(** The locals of [invoice_table], in closed form. *)
Lemma invoice_table_closed (items : list (item num)) (currency : string)
  (tax_percentage : num) :
  invoice_table items currency tax_percentage =
  if all_fit items
  then
    let subtotal := running_sum (line_totals items) (of_int 0) in
    let tax := div (mul subtotal tax_percentage) (of_int 100) in
    let grand := add subtotal tax in
    inr {| data :=
             (header_row currency :: map item_row items ++
              summary_rows currency tax_percentage subtotal tax grand)%list;
           total_amount := subtotal;
           tax_amount := tax;
           grand_total := grand |}
  else inl OverflowError.
Proof.
  unfold invoice_table. rewrite for_items_closed.
  destruct (all_fit items); [| reflexivity].
  simpl. unfold py_append, summary_rows.
  repeat rewrite <- app_assoc. reflexivity.
Qed.

Lemma item_rows_of_table (hd : list string) (mid : list (list string))
  (a b c : list string) :
  item_rows_of (hd :: mid ++ [a; b; c]) = mid.
Proof.
  unfold item_rows_of. simpl skipn.
  replace (length (hd :: mid ++ [a; b; c]) - 4)%nat with (length mid).
  - rewrite firstn_app, firstn_all, Nat.sub_diag. simpl. apply app_nil_r.
  - simpl. rewrite length_app. simpl. lia.
Qed.

Lemma closing_rows_of_table (hd : list string) (mid : list (list string))
  (a b c : list string) :
  closing_rows_of (hd :: mid ++ [a; b; c]) = [a; b; c].
Proof.
  unfold closing_rows_of.
  replace (length (hd :: mid ++ [a; b; c]) - 3)%nat with (length (hd :: mid)).
  - change (hd :: mid ++ [a; b; c])%list with ((hd :: mid) ++ [a; b; c])%list.
    rewrite skipn_app, skipn_all, Nat.sub_diag. reflexivity.
  - simpl. rewrite length_app. simpl. lia.
Qed.

(** In exact arithmetic the left-to-right accumulation is the sum. *)
Lemma running_sum_Sigma `{!ExactArith num} (xs : list num) :
  forall start, running_sum xs start = add start (Sigma xs).
Proof.
  induction xs as [| x rest IH]; intros start; simpl.
  - rewrite add_comm, add_0_l. reflexivity.
  - unfold running_sum in *. simpl. rewrite IH, add_assoc. reflexivity.
Qed.

(** In exact arithmetic the sum does not depend on the order. *)
Lemma Sigma_Permutation `{!ExactArith num} (xs ys : list num) :
  Permutation xs ys -> Sigma xs = Sigma ys.
Proof.
  induction 1 as [| x xs ys _ IH | x y xs | xs ys zs _ IH1 _ IH2]; simpl.
  - reflexivity.
  - rewrite IH. reflexivity.
  - rewrite !add_assoc, (add_comm y x). reflexivity.
  - rewrite IH1. exact IH2.
Qed.

Lemma all_fit_exact `{!ExactArith num} (items : list (item num)) :
  all_fit items = true.
Proof.
  unfold all_fit. apply forallb_forall. intros it _. apply every_int_fits.
Qed.

End LoopFacts.

(** ** The whole call *)

Section CallFacts.

Context {num : Type} `{PyNumber num}.
Variable A4 : Q * Q.
Variable readable_image : string -> bool.

(** [generate_invoice] in closed form: it stops at a logo that cannot be
    read; otherwise it reads the clock twice, raises what the table
    computation raises, and else returns the page. *)
Lemma generate_invoice_closed
  (company_name customer_name customer_email : string)
  (items : list (item num)) (currency : string) (tax_percentage : num)
  (logo_path : option string) (w : world) :
  generate_invoice A4 readable_image company_name customer_name
                   customer_email items currency tax_percentage logo_path w =
  if logo_readable readable_image logo_path
  then
    match invoice_table items currency tax_percentage with
    | inl e => inl e
    | inr l =>
        inr (page A4 company_name customer_name customer_email logo_path
                  (clock w (reads w)) (clock w (S (reads w)))
                  (data l) (table_y items),
             tick (tick w))
    end
  else inl OSError.
Proof.
  unfold generate_invoice, on_new_canvas, generate_invoice_body, page, tick.
  unfold logo_readable.
  destruct (invoice_table items currency tax_percentage) as [e | l];
    (destruct logo_path as [p |];
     [destruct (truthy (Some p)) eqn:Hp;
      [destruct (readable_image p) eqn:Hr |] |]);
    lazy beta iota zeta
         delta [bind emit raise now lift save draw_logo ret py_append app
                pdf wall clock reads];
    try rewrite Hp; try rewrite Hr; reflexivity.
Qed.

(** Whatever the page, the table is on it, drawn at height [y]. *)
Lemma table_on_page
  (company_name customer_name customer_email : string)
  (logo_path : option string) (d t : datetime) (rows : list (list string))
  (y : Z) :
  In (drawOn (invoice_Table rows) left_margin y)
     (page A4 company_name customer_name customer_email logo_path d t rows y).
Proof.
  unfold page. apply in_or_app. right. apply in_or_app. right.
  repeat (first [left; reflexivity | right]).
Qed.

End CallFacts.

(** ** The totals *)

Section TotalsFacts.

Context {num : Type} `{PyNumber num}.

(** C1 — For every item list whose quantities convert to the number
    type (so in particular for quantities of at least 1, prices of at
    least 0 and a percentage between 0 and 100), the table computation
    returns, and its totals are: subtotal = the line totals quantity ×
    unit price, unrounded, added up in input order, which in exact
    arithmetic is Σ (quantity × unit price); tax amount = subtotal × tax
    percentage / 100; grand total = subtotal + tax amount. *)
Theorem totals_follow_the_formulas
  (items : list (item num)) (currency : string) (tax_percentage : num) :
  all_fit items = true ->
  exists l : locals num,
    invoice_table items currency tax_percentage = inr l /\
    total_amount l = running_sum (line_totals items) (of_int 0) /\
    (ExactArith num -> total_amount l = Sigma (line_totals items)) /\
    tax_amount l = div (mul (total_amount l) tax_percentage) (of_int 100) /\
    grand_total l = add (total_amount l) (tax_amount l).
Proof.
  intros Hfit. rewrite invoice_table_closed, Hfit. cbv zeta.
  eexists. split; [reflexivity |]. simpl.
  repeat split. intros Hexact. rewrite running_sum_Sigma. apply add_0_l.
Qed.

(** C4 — Whatever the number type, when the quantities convert, the grand
    total is exactly the sum of the subtotal and the tax amount held in
    the locals; the subtotal is accumulated from the unrounded line
    totals and the tax is computed from the unrounded subtotal; the
    two-decimal rendering is applied once to each value shown (each
    price, each line total, and the three totals of the closing rows) and
    to nothing that is added or multiplied afterwards. *)
Theorem rounding_only_at_display
  (items : list (item num)) (currency : string) (tax_percentage : num) :
  all_fit items = true ->
  exists l : locals num,
    invoice_table items currency tax_percentage = inr l /\
    grand_total l = add (total_amount l) (tax_amount l) /\
    total_amount l = running_sum (line_totals items) (of_int 0) /\
    tax_amount l = div (mul (total_amount l) tax_percentage) (of_int 100) /\
    item_rows_of (data l) =
      map (fun it : item num =>
             [fst (fst it); str_Z (qty_of it); format_2f (price_of it);
              format_2f (line_total (qty_of it) (price_of it))]) items /\
    closing_rows_of (data l) =
      [ [""; ""; "Subtotal:"; currency ++ " " ++ format_2f (total_amount l)];
        [""; ""; "Tax (" ++ py_str tax_percentage ++ "%):";
         currency ++ " " ++ format_2f (tax_amount l)];
        [""; ""; "Grand Total:";
         currency ++ " " ++ format_2f (grand_total l)] ].
Proof.
  intros Hfit. rewrite invoice_table_closed, Hfit. cbv zeta.
  eexists. split; [reflexivity |]. simpl data. unfold summary_rows.
  rewrite item_rows_of_table, closing_rows_of_table. simpl.
  repeat split. apply map_ext. intros [[name qty] price]. reflexivity.
Qed.

(** C9 — The currency symbol takes no part in the arithmetic: for two
    currency symbols and the same items and tax percentage, the table
    computation raises the same exception or returns the same subtotal,
    tax amount and grand total and the same item rows, hence the same
    line totals. *)
Theorem currency_is_only_a_label
  (items : list (item num)) (tax_percentage : num) (c1 c2 : string) :
  match invoice_table items c1 tax_percentage,
        invoice_table items c2 tax_percentage with
  | inr l1, inr l2 =>
      total_amount l1 = total_amount l2 /\
      tax_amount l1 = tax_amount l2 /\
      grand_total l1 = grand_total l2 /\
      item_rows_of (data l1) = map item_row items /\
      item_rows_of (data l2) = map item_row items
  | inl e1, inl e2 => e1 = e2
  | _, _ => False
  end.
Proof.
  rewrite !invoice_table_closed.
  destruct (all_fit items); [| reflexivity].
  cbv zeta. simpl. unfold summary_rows.
  rewrite !item_rows_of_table. repeat split.
Qed.

(** C10 — In exact arithmetic, permuting the items permutes the item rows
    in the same way (they are the rows of the permuted items, in their
    order) and leaves the subtotal, the tax amount, the grand total and
    the three closing rows unchanged. *)
Theorem totals_invariant_under_permutation `{!ExactArith num}
  (items items' : list (item num)) (currency : string)
  (tax_percentage : num) :
  Permutation items items' ->
  exists l l' : locals num,
    invoice_table items currency tax_percentage = inr l /\
    invoice_table items' currency tax_percentage = inr l' /\
    total_amount l' = total_amount l /\
    tax_amount l' = tax_amount l /\
    grand_total l' = grand_total l /\
    item_rows_of (data l) = map item_row items /\
    item_rows_of (data l') = map item_row items' /\
    Permutation (item_rows_of (data l)) (item_rows_of (data l')) /\
    closing_rows_of (data l') = closing_rows_of (data l).
Proof.
  intros Hperm.
  rewrite !invoice_table_closed, !all_fit_exact. cbv zeta.
  assert (Hsum : running_sum (line_totals items') (of_int 0) =
                 running_sum (line_totals items) (of_int 0)).
  { rewrite !running_sum_Sigma. f_equal. symmetry.
    apply Sigma_Permutation. unfold line_totals.
    apply Permutation_map. exact Hperm. }
  do 2 eexists. split; [reflexivity |]. split; [reflexivity |].
  simpl. unfold summary_rows.
  rewrite !item_rows_of_table, !closing_rows_of_table, Hsum.
  repeat split. apply Permutation_map. exact Hperm.
Qed.

End TotalsFacts.

(** ** The rows, the page and the failures *)

Section PageFacts.

Context {num : Type} `{PyNumber num}.
Variable A4 : Q * Q.
Variable readable_image : string -> bool.

(** What a call returns, when it returns, is the page of the table
    computed by [invoice_table]. *)
Lemma generate_invoice_returns
  (company_name customer_name customer_email : string)
  (items : list (item num)) (currency : string) (tax_percentage : num)
  (logo_path : option string) (w : world) :
  all_fit items = true ->
  logo_readable readable_image logo_path = true ->
  exists l : locals num,
    invoice_table items currency tax_percentage = inr l /\
    generate_invoice A4 readable_image company_name customer_name
                     customer_email items currency tax_percentage
                     logo_path w =
    inr (page A4 company_name customer_name customer_email logo_path
              (clock w (reads w)) (clock w (S (reads w)))
              (data l) (table_y items),
         tick (tick w)).
Proof.
  intros Hfit Hlogo. rewrite generate_invoice_closed, Hlogo.
  rewrite invoice_table_closed, Hfit. cbv zeta.
  eexists. split; reflexivity.
Qed.

(** C2 — When the quantities convert and the logo, if one is given, can
    be read, the rows of the table that [generate_invoice] builds and
    draws are, in this order: the header row ["Item"], ["Quantity"],
    ["Unit Price (<currency>)"], ["Total Price (<currency>)"]; one row per
    item, in input order; and the three rows labelled ["Subtotal:"],
    ["Tax (<percent>%):"] and ["Grand Total:"].  Their number is 1 + the
    number of items + 3. *)
Theorem table_rows_in_order
  (company_name customer_name customer_email : string)
  (items : list (item num)) (currency : string) (tax_percentage : num)
  (logo_path : option string) (w : world) :
  all_fit items = true ->
  logo_readable readable_image logo_path = true ->
  exists (l : locals num) (doc : document) (w' : world),
    let header :=
      ["Item"; "Quantity"; "Unit Price (" ++ currency ++ ")";
       "Total Price (" ++ currency ++ ")"] in
    let closing :=
      [ [""; ""; "Subtotal:"; currency ++ " " ++ format_2f (total_amount l)];
        [""; ""; "Tax (" ++ py_str tax_percentage ++ "%):";
         currency ++ " " ++ format_2f (tax_amount l)];
        [""; ""; "Grand Total:";
         currency ++ " " ++ format_2f (grand_total l)] ] in
    invoice_table items currency tax_percentage = inr l /\
    generate_invoice A4 readable_image company_name customer_name
                     customer_email items currency tax_percentage
                     logo_path w = inr (doc, w') /\
    In (drawOn (invoice_Table (data l)) left_margin (table_y items)) doc /\
    data l = (header :: map item_row items ++ closing)%list /\
    length (data l) = (1 + length items + 3)%nat.
Proof.
  intros Hfit Hlogo.
  destruct (generate_invoice_returns company_name customer_name
              customer_email items currency tax_percentage logo_path w
              Hfit Hlogo)
    as [l [Hl Hgen]].
  exists l. do 2 eexists. cbv zeta.
  split; [exact Hl |]. split; [exact Hgen |].
  split; [apply table_on_page |].
  rewrite invoice_table_closed, Hfit in Hl. cbv zeta in Hl.
  injection Hl as <-. simpl. split; [reflexivity |].
  rewrite length_app, length_map. simpl. lia.
Qed.

(** C5, as the code has it — The call does not check that there are
    items.  For the empty list it returns a page whose table has the
    header row and the three closing rows, computed from a subtotal of 0;
    the one thing that stops it is a logo that is given and cannot be
    read, with [OSError].  For every list it returns a page exactly when
    the logo, if given, can be read and all quantities convert to the
    number type; otherwise it raises [OSError] for the logo, or else
    [OverflowError] for a quantity: it never fails with
    [InvalidInvoiceInput]. *)
Theorem no_check_for_items
  (company_name customer_name customer_email : string)
  (items : list (item num)) (currency : string) (tax_percentage : num)
  (logo_path : option string) (w : world) :
  match generate_invoice A4 readable_image company_name customer_name
                         customer_email [] currency tax_percentage
                         logo_path w with
  | inr (doc, _) =>
      logo_readable readable_image logo_path = true /\
      let tax := div (mul (of_int 0) tax_percentage) (of_int 100) in
      In (drawOn
            (invoice_Table
               (header_row currency ::
                summary_rows currency tax_percentage
                             (of_int 0) tax (add (of_int 0) tax)))
            left_margin 350) doc
  | inl e => e = OSError /\ logo_readable readable_image logo_path = false
  end /\
  match generate_invoice A4 readable_image company_name customer_name
                         customer_email items currency tax_percentage
                         logo_path w with
  | inr _ =>
      logo_readable readable_image logo_path = true /\
      all_fit items = true
  | inl e =>
      (e = OSError /\ logo_readable readable_image logo_path = false) \/
      (e = OverflowError /\
       logo_readable readable_image logo_path = true /\
       all_fit items = false)
  end.
Proof.
  split.
  - rewrite generate_invoice_closed, invoice_table_closed. simpl all_fit.
    destruct (logo_readable readable_image logo_path);
      cbv beta iota zeta; [| auto].
    split; [reflexivity |]. apply table_on_page.
  - rewrite generate_invoice_closed, invoice_table_closed.
    destruct (logo_readable readable_image logo_path);
      [destruct (all_fit items) |]; cbv beta iota zeta; auto.
Qed.

(** C6, as the code has it — The calculator does not look at the sign of
    a quantity, a unit price or the tax percentage.  For every input,
    negative values included, it returns the table and the totals of the
    same formulas whenever all quantities convert to the number type, and
    otherwise raises [OverflowError]; [generate_invoice] then returns a
    page with that table, unless a logo is given that cannot be read, in
    which case it raises [OSError] before the table is computed.  Neither
    ever fails with [InvalidInvoiceInput]. *)
Theorem no_sign_check
  (company_name customer_name customer_email : string)
  (items : list (item num)) (currency : string) (tax_percentage : num)
  (logo_path : option string) (w : world) :
  match invoice_table items currency tax_percentage with
  | inr l =>
      all_fit items = true /\
      total_amount l = running_sum (line_totals items) (of_int 0) /\
      tax_amount l = div (mul (total_amount l) tax_percentage) (of_int 100) /\
      grand_total l = add (total_amount l) (tax_amount l)
  | inl e => e = OverflowError /\ all_fit items = false
  end /\
  match generate_invoice A4 readable_image company_name customer_name
                         customer_email items currency tax_percentage
                         logo_path w with
  | inr (doc, _) =>
      logo_readable readable_image logo_path = true /\
      exists l : locals num,
        invoice_table items currency tax_percentage = inr l /\
        In (drawOn (invoice_Table (data l)) left_margin (table_y items)) doc
  | inl e =>
      (e = OSError /\ logo_readable readable_image logo_path = false) \/
      (e = OverflowError /\
       logo_readable readable_image logo_path = true /\
       all_fit items = false)
  end.
Proof.
  split.
  - rewrite invoice_table_closed.
    destruct (all_fit items); cbv beta iota zeta; [| auto].
    repeat split.
  - rewrite generate_invoice_closed.
    destruct (logo_readable readable_image logo_path); [| auto].
    rewrite invoice_table_closed.
    destruct (all_fit items); cbv beta iota zeta; [| auto].
    split; [reflexivity |]. eexists. split; [reflexivity |].
    apply table_on_page.
Qed.

(** C7, as the code has it — The call does not compare the table with the
    bottom margin.  When the logo, if given, can be read and the
    quantities convert, it returns a page on which the table is drawn with
    its lower left corner at height 350 − 20 × (number of items), whatever
    that height is; the height is below the bottom margin of 50 exactly
    when there are more than 15 items.  It never fails with
    [LayoutOverflow]: the only exceptions are [OSError], for a logo that
    cannot be read, and [OverflowError], for a quantity that does not
    convert. *)
Theorem no_check_against_the_bottom_margin
  (company_name customer_name customer_email : string)
  (items : list (item num)) (currency : string) (tax_percentage : num)
  (logo_path : option string) (w : world) :
  match generate_invoice A4 readable_image company_name customer_name
                         customer_email items currency tax_percentage
                         logo_path w with
  | inr (doc, _) =>
      logo_readable readable_image logo_path = true /\
      all_fit items = true /\
      exists rows : list (list string),
        length rows = (length items + 4)%nat /\
        In (drawOn (invoice_Table rows) left_margin
                   (350 - 20 * Z.of_nat (length items))%Z) doc
  | inl e =>
      (e = OSError /\ logo_readable readable_image logo_path = false) \/
      (e = OverflowError /\
       logo_readable readable_image logo_path = true /\
       all_fit items = false)
  end /\
  ((350 - 20 * Z.of_nat (length items) < bottom_margin)%Z <->
   (15 < length items)%nat).
Proof.
  split.
  - rewrite generate_invoice_closed, invoice_table_closed.
    destruct (logo_readable readable_image logo_path);
      [destruct (all_fit items) |]; cbv beta iota zeta; auto.
    split; [reflexivity |]. split; [reflexivity |]. eexists. split.
    2: { replace (350 - 20 * Z.of_nat (length items))%Z
           with (table_y items)
           by (unfold table_y, top_margin; lia).
         apply table_on_page. }
    simpl. rewrite length_app, length_map. simpl. lia.
  - unfold bottom_margin. lia.
Qed.

(** C8, as the code has it — The page is a function of the arguments and
    of two readings of the clock.  Each call reads the clock twice: the
    date drawn is that of the first reading and the time drawn is that of
    the second.  Two calls with the same arguments, made when the clock
    gives the same two readings, return the same page or raise the same
    exception. *)
Theorem same_readings_same_page
  (company_name customer_name customer_email : string)
  (items : list (item num)) (currency : string) (tax_percentage : num)
  (logo_path : option string) (w1 w2 : world) :
  clock w1 (reads w1) = clock w2 (reads w2) ->
  clock w1 (S (reads w1)) = clock w2 (S (reads w2)) ->
  returned_page
    (generate_invoice A4 readable_image company_name customer_name
                      customer_email items currency tax_percentage
                      logo_path w1) =
  returned_page
    (generate_invoice A4 readable_image company_name customer_name
                      customer_email items currency tax_percentage
                      logo_path w2) /\
  match generate_invoice A4 readable_image company_name customer_name
                         customer_email items currency tax_percentage
                         logo_path w1 with
  | inr (doc, w') =>
      reads w' = (reads w1 + 2)%nat /\
      In (drawString 350 600
            ("Invoice Date: " ++ strftime_date (clock w1 (reads w1)))) doc /\
      In (drawString 350 580
            ("Purchase Time: " ++
             strftime_time (clock w1 (S (reads w1))))) doc
  | inl _ => True
  end.
Proof.
  intros Hd Ht. rewrite !generate_invoice_closed.
  destruct (logo_readable readable_image logo_path);
    [| split; [reflexivity | exact I]].
  destruct (invoice_table items currency tax_percentage) as [e | l].
  - split; [reflexivity | exact I].
  - unfold returned_page. rewrite Hd, Ht. split; [reflexivity |].
    split; [simpl; lia |].
    unfold page.
    split; apply in_or_app; right; apply in_or_app; right; simpl; tauto.
Qed.

End PageFacts.

(** ** The example of the specification, and concrete runs *)

(** Membership in a concrete list, decided by comparison. *)
Ltac find_in_list := repeat (first [left; reflexivity | right]).

(** C3, as the code has it — For the items [("Widget", 2, 50.00),
    ("Gadget", 1, 150.00)] and a tax of 18 percent, in binary64
    arithmetic, the subtotal is 250, the tax amount 45 and the grand total
    295, shown as 250.00, 45.00 and 295.00; the table has three rows of
    header and item data (one header row, two item rows) and three
    closing rows, six rows in all. *)
Theorem widget_gadget_example (currency : string) :
  exists l : locals float,
    invoice_table widget_gadget currency 18%float = inr l /\
    total_amount l = 250%float /\
    tax_amount l = 45%float /\
    grand_total l = 295%float /\
    data l =
      [ ["Item"; "Quantity"; "Unit Price (" ++ currency ++ ")";
         "Total Price (" ++ currency ++ ")"];
        ["Widget"; "2"; "50.00"; "100.00"];
        ["Gadget"; "1"; "150.00"; "150.00"];
        [""; ""; "Subtotal:"; currency ++ " 250.00"];
        [""; ""; "Tax (18.0%):"; currency ++ " 45.00"];
        [""; ""; "Grand Total:"; currency ++ " 295.00"] ] /\
    length (data l) = 6%nat.
Proof.
  eexists. split.
  - rewrite invoice_table_closed. vm_compute. reflexivity.
  - vm_compute. repeat split.
Qed.

(** C3, the count of the claim: the table of the example has six rows,
    not seven. *)
Lemma widget_gadget_table_has_six_rows :
  exists l : locals float,
    invoice_table widget_gadget "$" 18%float = inr l /\
    length (data l) = 6%nat /\
    length (data l) <> 7%nat.
Proof.
  eexists. split.
  - vm_compute. reflexivity.
  - vm_compute. split; [reflexivity | discriminate].
Qed.

(** The same example in exact arithmetic shows the same amounts. *)
Example widget_gadget_exact_rows :
  returned_page
    (generate_invoice A4_points no_images "Acme" "Ann" "ann@example.org"
                      widget_gadget_exact "$" (Fraction.frac_of_int 18)
                      None midnight_clock) =
  inr (page A4_points "Acme" "Ann" "ann@example.org" None
            last_second_of_2024 first_second_of_2025
            [ ["Item"; "Quantity"; "Unit Price ($)"; "Total Price ($)"];
              ["Widget"; "2"; "50.00"; "100.00"];
              ["Gadget"; "1"; "150.00"; "150.00"];
              [""; ""; "Subtotal:"; "$ 250.00"];
              [""; ""; "Tax (18%):"; "$ 45.00"];
              [""; ""; "Grand Total:"; "$ 295.00"] ] 310).
Proof. vm_compute. reflexivity. Qed.

(** Rounding at display only, seen on an example: three lines that each
    show 0.34 add up to a subtotal that shows 1.00. *)
Example display_rounding_is_not_accumulated :
  exists l : locals Qc,
    invoice_table three_pens "$" (Fraction.frac_of_int 0) = inr l /\
    data l =
      [ ["Item"; "Quantity"; "Unit Price ($)"; "Total Price ($)"];
        ["Pen"; "1"; "0.34"; "0.34"];
        ["Pen"; "1"; "0.34"; "0.34"];
        ["Pen"; "1"; "0.34"; "0.34"];
        [""; ""; "Subtotal:"; "$ 1.00"];
        [""; ""; "Tax (0%):"; "$ 0.00"];
        [""; ""; "Grand Total:"; "$ 1.00"] ].
Proof.
  eexists. split.
  - rewrite invoice_table_closed. reflexivity.
  - vm_compute. reflexivity.
Qed.

(** Binary64 addition is not exact: the order of the lines can change the
    subtotal. *)
Example float_sum_depends_on_order :
  (* 0.1 + 0.2 + 0.3 against 0.3 + 0.2 + 0.1 *)
  running_sum [0x1.999999999999ap-4; 0x1.999999999999ap-3;
               0x1.3333333333333p-2]%float 0%float <>
  running_sum [0x1.3333333333333p-2; 0x1.999999999999ap-3;
               0x1.999999999999ap-4]%float 0%float.
Proof. vm_compute. discriminate. Qed.

(** C5, the claim on the code: called with no items, [generate_invoice]
    returns a page, with a table of the header row and three closing rows
    of 0.00. *)
Lemma empty_list_returns_a_page :
  exists (doc : document) (w' : world),
    generate_invoice A4_points no_images "Company" "Ann" "ann@example.org"
                     (@nil (item float)) "$" 18%float None midnight_clock
    = inr (doc, w') /\
    In (drawOn
          (invoice_Table
             [ ["Item"; "Quantity"; "Unit Price ($)"; "Total Price ($)"];
               [""; ""; "Subtotal:"; "$ 0.00"];
               [""; ""; "Tax (18.0%):"; "$ 0.00"];
               [""; ""; "Grand Total:"; "$ 0.00"] ])
          50 350) doc.
Proof.
  do 2 eexists. split.
  - vm_compute. reflexivity.
  - vm_compute. find_in_list.
Qed.

(** C6, the claim on the code: a negative quantity, a negative unit price
    and a negative tax percentage each give totals and a table, not an
    error. *)
Lemma negative_inputs_are_computed :
  invoice_table [("Refund", (-2)%Z, 50%float)] "$" 18%float =
    inr {| data :=
             [ ["Item"; "Quantity"; "Unit Price ($)"; "Total Price ($)"];
               ["Refund"; "-2"; "50.00"; "-100.00"];
               [""; ""; "Subtotal:"; "$ -100.00"];
               [""; ""; "Tax (18.0%):"; "$ -18.00"];
               [""; ""; "Grand Total:"; "$ -118.00"] ];
           total_amount := (-100)%float;
           tax_amount := (-18)%float;
           grand_total := (-118)%float |} /\
  invoice_table [("Credit", 1%Z, (-50)%float)] "$" 18%float =
    inr {| data :=
             [ ["Item"; "Quantity"; "Unit Price ($)"; "Total Price ($)"];
               ["Credit"; "1"; "-50.00"; "-50.00"];
               [""; ""; "Subtotal:"; "$ -50.00"];
               [""; ""; "Tax (18.0%):"; "$ -9.00"];
               [""; ""; "Grand Total:"; "$ -59.00"] ];
           total_amount := (-50)%float;
           tax_amount := (-9)%float;
           grand_total := (-59)%float |} /\
  invoice_table [("Widget", 1%Z, 50%float)] "$" (-18)%float =
    inr {| data :=
             [ ["Item"; "Quantity"; "Unit Price ($)"; "Total Price ($)"];
               ["Widget"; "1"; "50.00"; "50.00"];
               [""; ""; "Subtotal:"; "$ 50.00"];
               [""; ""; "Tax (-18.0%):"; "$ -9.00"];
               [""; ""; "Grand Total:"; "$ 41.00"] ];
           total_amount := 50%float;
           tax_amount := (-9)%float;
           grand_total := 41%float |} /\
  exists (doc : document) (w' : world),
    generate_invoice A4_points no_images "Company" "Ann" "ann@example.org"
                     [("Refund", (-2)%Z, 50%float)] "$" 18%float None
                     midnight_clock
    = inr (doc, w').
Proof.
  repeat split; try (vm_compute; reflexivity).
  do 2 eexists. vm_compute. reflexivity.
Qed.

(** C7, the claim on the code: with sixteen items the table is drawn from
    height 30, below the bottom margin of 50, and the call returns the
    page. *)
Lemma sixteen_items_are_drawn_below_the_margin :
  exists (doc : document) (w' : world) (rows : list (list string)),
    generate_invoice A4_points no_images "Company" "Ann" "ann@example.org"
                     sixteen_items "$" 18%float None midnight_clock
    = inr (doc, w') /\
    In (drawOn (invoice_Table rows) 50 30) doc /\
    length rows = 20%nat /\
    (30 < bottom_margin)%Z.
Proof.
  do 3 eexists. split; [| split; [| split]].
  - vm_compute. reflexivity.
  - vm_compute. find_in_list.
  - vm_compute. reflexivity.
  - reflexivity.
Qed.

(** C8, the claim on the code: one call reads the clock twice, and when
    midnight falls between the two readings the page carries the date of
    one day and the time of the next. *)
Lemma clock_is_read_twice :
  exists (doc : document) (w' : world),
    generate_invoice A4_points no_images "Company" "Ann" "ann@example.org"
                     widget_gadget "$" 18%float None midnight_clock
    = inr (doc, w') /\
    reads midnight_clock = 0%nat /\
    reads w' = 2%nat /\
    In (drawString 350 600 "Invoice Date: 2024-12-31") doc /\
    In (drawString 350 580 "Purchase Time: 00:00:00") doc.
Proof.
  do 2 eexists. split; [| split; [| split; [| split]]].
  - vm_compute. reflexivity.
  - reflexivity.
  - reflexivity.
  - vm_compute. find_in_list.
  - vm_compute. find_in_list.
Qed.

(** ** The theorems at concrete inputs *)

(** C1 at the exact items of the example. *)
Lemma totals_follow_the_formulas_witness :
  all_fit widget_gadget_exact = true /\
  exists l : locals Qc,
    invoice_table widget_gadget_exact "$" (Fraction.frac_of_int 18) = inr l /\
    total_amount l =
      running_sum (line_totals widget_gadget_exact) (of_int 0) /\
    (ExactArith Qc ->
     total_amount l = Sigma (line_totals widget_gadget_exact)) /\
    tax_amount l =
      div (mul (total_amount l) (Fraction.frac_of_int 18)) (of_int 100) /\
    grand_total l = add (total_amount l) (tax_amount l).
Proof.
  split; [reflexivity |].
  exact (totals_follow_the_formulas widget_gadget_exact "$"
           (Fraction.frac_of_int 18) eq_refl).
Defined.

(** C2 at the items of the example, as floats. *)
Lemma table_rows_in_order_witness :
  exists (l : locals float) (doc : document) (w' : world),
    let header :=
      ["Item"; "Quantity"; "Unit Price (" ++ "$" ++ ")";
       "Total Price (" ++ "$" ++ ")"] in
    let closing :=
      [ [""; ""; "Subtotal:"; "$" ++ " " ++ format_2f (total_amount l)];
        [""; ""; "Tax (" ++ py_str 18%float ++ "%):";
         "$" ++ " " ++ format_2f (tax_amount l)];
        [""; ""; "Grand Total:"; "$" ++ " " ++ format_2f (grand_total l)] ] in
    invoice_table widget_gadget "$" 18%float = inr l /\
    generate_invoice A4_points logo_on_disk "Acme" "Ann" "ann@example.org"
                     widget_gadget "$" 18%float (Some "logo.png")
                     midnight_clock = inr (doc, w') /\
    In (drawOn (invoice_Table (data l)) left_margin (table_y widget_gadget))
       doc /\
    data l = (header :: map item_row widget_gadget ++ closing)%list /\
    length (data l) = (1 + length widget_gadget + 3)%nat.
Proof.
  exact (table_rows_in_order A4_points logo_on_disk "Acme" "Ann"
           "ann@example.org" widget_gadget "$" 18%float (Some "logo.png")
           midnight_clock eq_refl eq_refl).
Defined.

(** C4 at three lines of 0.335, where rounding each line first would
    give another subtotal. *)
Lemma rounding_only_at_display_witness :
  all_fit three_pens = true /\
  exists l : locals Qc,
    invoice_table three_pens "$" (Fraction.frac_of_int 0) = inr l /\
    grand_total l = add (total_amount l) (tax_amount l) /\
    total_amount l = running_sum (line_totals three_pens) (of_int 0) /\
    tax_amount l =
      div (mul (total_amount l) (Fraction.frac_of_int 0)) (of_int 100) /\
    item_rows_of (data l) =
      map (fun it : item Qc =>
             [fst (fst it); str_Z (qty_of it); format_2f (price_of it);
              format_2f (line_total (qty_of it) (price_of it))])
          three_pens /\
    closing_rows_of (data l) =
      [ [""; ""; "Subtotal:"; "$" ++ " " ++ format_2f (total_amount l)];
        [""; ""; "Tax (" ++ py_str (Fraction.frac_of_int 0) ++ "%):";
         "$" ++ " " ++ format_2f (tax_amount l)];
        [""; ""; "Grand Total:"; "$" ++ " " ++ format_2f (grand_total l)] ].
Proof.
  split; [reflexivity |].
  exact (rounding_only_at_display three_pens "$" (Fraction.frac_of_int 0)
           eq_refl).
Defined.

(** C10 at the items of the example and their swap. *)
Lemma totals_invariant_under_permutation_witness :
  Permutation widget_gadget_exact gadget_widget_exact /\
  exists l l' : locals Qc,
    invoice_table widget_gadget_exact "$" (Fraction.frac_of_int 18) = inr l /\
    invoice_table gadget_widget_exact "$" (Fraction.frac_of_int 18) = inr l' /\
    total_amount l' = total_amount l /\
    tax_amount l' = tax_amount l /\
    grand_total l' = grand_total l /\
    item_rows_of (data l) = map item_row widget_gadget_exact /\
    item_rows_of (data l') = map item_row gadget_widget_exact /\
    Permutation (item_rows_of (data l)) (item_rows_of (data l')) /\
    closing_rows_of (data l') = closing_rows_of (data l).
Proof.
  split; [apply perm_swap |].
  exact (totals_invariant_under_permutation
           widget_gadget_exact gadget_widget_exact "$"
           (Fraction.frac_of_int 18) (perm_swap _ _ _)).
Defined.

(** C8 at two clocks that agree on the two readings of the call and on
    nothing else. *)
Lemma same_readings_same_page_witness :
  clock midnight_clock (reads midnight_clock) =
    clock other_clock (reads other_clock) /\
  clock midnight_clock (S (reads midnight_clock)) =
    clock other_clock (S (reads other_clock)) /\
  returned_page
    (generate_invoice A4_points no_images "Acme" "Ann" "ann@example.org"
                      widget_gadget "$" 18%float None midnight_clock) =
  returned_page
    (generate_invoice A4_points no_images "Acme" "Ann" "ann@example.org"
                      widget_gadget "$" 18%float None other_clock).
Proof.
  split; [reflexivity |]. split; [reflexivity |].
  exact (proj1 (same_readings_same_page A4_points no_images "Acme" "Ann"
                  "ann@example.org" widget_gadget "$" 18%float None
                  midnight_clock other_clock eq_refl eq_refl)).
Defined.

(** * Further properties of the code *)

(** ** The loop and the table, for every number type *)

Section MoreLoopFacts.

Context {num : Type} `{PyNumber num}.

Lemma all_fit_app (a b : list (item num)) :
  all_fit (a ++ b) = (all_fit a && all_fit b)%bool.
Proof. unfold all_fit. apply forallb_app. Qed.

Lemma running_sum_app (xs ys : list num) (start : num) :
  running_sum (xs ++ ys) start = running_sum ys (running_sum xs start).
Proof. unfold running_sum. apply fold_left_app. Qed.

(** X1 — Running the loop over a list followed by another is running it
    over the first and then, from the rows and the counter it leaves,
    over the second; when the first part raises, the second is never
    looked at. *)
Theorem for_items_app (a b : list (item num)) (rows : list (list string))
  (total : num) :
  for_items (a ++ b) rows total =
  (r <- for_items a rows total ;; for_items b (fst r) (snd r))%result.
Proof.
  rewrite !for_items_closed, all_fit_app.
  destruct (all_fit a); simpl.
  - rewrite for_items_closed.
    destruct (all_fit b); [| reflexivity].
    unfold line_totals.
    rewrite !map_app, running_sum_app, app_assoc. reflexivity.
  - reflexivity.
Qed.

(** X2 — Every row of the table built has four cells, as many as there
    are column widths, whatever the items; and the table is built exactly
    when all quantities convert. *)
Theorem every_row_has_four_cells
  (items : list (item num)) (currency : string) (tax_percentage : num) :
  match invoice_table items currency tax_percentage with
  | inr l =>
      all_fit items = true /\
      Forall (fun row => length row = 4%nat) (data l) /\
      length (colWidths (invoice_Table (data l))) = 4%nat
  | inl e => e = OverflowError /\ all_fit items = false
  end.
Proof.
  rewrite invoice_table_closed.
  destruct (all_fit items); cbv beta iota zeta; [| auto].
  split; [reflexivity |]. split; [| reflexivity].
  simpl data. constructor; [reflexivity |].
  apply Forall_app. split.
  - apply Forall_forall. intros row Hin.
    apply in_map_iff in Hin. destruct Hin as [[[name qty] price] [<- _]].
    reflexivity.
  - unfold summary_rows. repeat constructor.
Qed.

(** X3 — The rows the style commands cover, in a table of n items (n + 4
    rows): the header commands cover row 0; the grid and the alignment
    cover rows 0 to n + 3; the light background covers rows 1 to n + 1,
    and row n + 1 is the Subtotal row, so it is shaded with the items;
    the two rules are drawn above row n + 1, the Subtotal row, and above
    row n + 3, the Grand Total row. *)
Theorem style_rows
  (items : list (item num)) (currency : string) (tax_percentage : num) :
  all_fit items = true ->
  exists l : locals num,
    invoice_table items currency tax_percentage = inr l /\
    let n := Z.of_nat (length items) in
    map (rows_spanned (Z.of_nat (length (data l))))
        (style (invoice_Table (data l))) =
      [ (0, 0); (0, 0); (0, n + 3); (0, 0); (0, 0);
        (1, n + 1); (0, n + 3); (0, 0);
        (n + 1, n + 1); (n + 3, n + 3) ]%Z /\
    nth_error (data l) (length items + 1) =
      Some [""; ""; "Subtotal:";
            currency ++ " " ++ format_2f (total_amount l)] /\
    nth_error (data l) (length items + 3) =
      Some [""; ""; "Grand Total:";
            currency ++ " " ++ format_2f (grand_total l)].
Proof.
  intros Hfit. rewrite invoice_table_closed, Hfit. cbv zeta.
  eexists. split; [reflexivity |]. simpl data.
  simpl total_amount. simpl grand_total.
  assert (Hlen : Z.of_nat
                   (length (header_row currency :: map item_row items ++
                            summary_rows currency tax_percentage
                              (running_sum (line_totals items) (of_int 0))
                              (div (mul (running_sum (line_totals items)
                                                     (of_int 0))
                                        tax_percentage) (of_int 100))
                              (add (running_sum (line_totals items)
                                                (of_int 0))
                                   (div (mul (running_sum
                                                (line_totals items)
                                                (of_int 0))
                                             tax_percentage)
                                        (of_int 100)))))
                 = (Z.of_nat (length items) + 4)%Z).
  { simpl length. rewrite length_app, length_map. simpl length. lia. }
  rewrite Hlen. split; [| split].
  - assert (H0 : forall k, resolve_index k 0 = 0%Z) by reflexivity.
    assert (H1 : forall k, resolve_index k 1 = 1%Z) by reflexivity.
    assert (Hm1 : forall k, resolve_index (k + 4) (-1) = (k + 3)%Z)
      by (intros k; unfold resolve_index; simpl; lia).
    assert (Hm3 : forall k, resolve_index (k + 4) (-3) = (k + 1)%Z)
      by (intros k; unfold resolve_index; simpl; lia).
    unfold invoice_Table, style, invoice_style, rows_spanned, cmd_corners.
    cbn [map snd]. rewrite !H0, !H1, !Hm1, !Hm3. reflexivity.
  - replace (length items + 1)%nat with (S (length (map item_row items) + 0))
      by (rewrite length_map; lia).
    simpl nth_error. rewrite nth_error_app2 by lia.
    replace (length (map item_row items) + 0 - length (map item_row items))%nat
      with 0%nat by lia.
    reflexivity.
  - replace (length items + 3)%nat with (S (length (map item_row items) + 2))
      by (rewrite length_map; lia).
    simpl nth_error. rewrite nth_error_app2 by lia.
    replace (length (map item_row items) + 2 - length (map item_row items))%nat
      with 2%nat by lia.
    reflexivity.
Qed.

End MoreLoopFacts.

(** ** Exact rationals: sums, signs and bounds *)

Lemma hundred_not_zero : Fraction.frac_of_int 100 <> Q2Qc 0.
Proof. intro Heq. discriminate Heq. Qed.

Lemma Qc_inv_hundred_nonneg : (0 <= / Fraction.frac_of_int 100)%Qc.
Proof. unfold Qcle. vm_compute. discriminate. Qed.

Lemma Qc_mult_nonneg (a b : Qc) : (0 <= a -> 0 <= b -> 0 <= a * b)%Qc.
Proof.
  intros Ha Hb. replace (Q2Qc 0) with (0 * b)%Qc by ring.
  apply Qcmult_le_compat_r; assumption.
Qed.

Lemma Qc_plus_nonneg (a b : Qc) : (0 <= a -> 0 <= b -> 0 <= a + b)%Qc.
Proof.
  intros Ha Hb. replace (Q2Qc 0) with (0 + 0)%Qc by ring.
  apply Qcplus_le_compat; assumption.
Qed.

Lemma frac_of_int_nonneg (z : Z) :
  (0 <= z)%Z -> (0 <= Fraction.frac_of_int z)%Qc.
Proof.
  intros Hz. unfold Qcle, Fraction.frac_of_int.
  change (Qred (inject_Z 0) <= Qred (inject_Z z))%Q.
  apply Qred_le. rewrite <- Zle_Qle. exact Hz.
Qed.

(** The sum of non-negative numbers is non-negative. *)
Lemma Sigma_nonneg (xs : list Qc) :
  Forall (fun x => (0 <= x)%Qc) xs -> (0 <= Sigma xs)%Qc.
Proof.
  induction 1 as [| x rest Hx _ IH]; simpl.
  - apply Qcle_refl.
  - apply Qc_plus_nonneg; assumption.
Qed.

Lemma exact_subtotal (items : list (item Qc)) :
  running_sum (line_totals items) (of_int 0) = Sigma (line_totals items).
Proof. rewrite running_sum_Sigma. apply add_0_l. Qed.

Lemma Sigma_app (xs ys : list Qc) :
  Sigma (xs ++ ys) = (Sigma xs + Sigma ys)%Qc.
Proof.
  induction xs as [| x rest IH]; simpl.
  - change (Sigma ys = 0 + Sigma ys)%Qc. ring.
  - rewrite IH. change (x + (Sigma rest + Sigma ys) =
                        x + Sigma rest + Sigma ys)%Qc. ring.
Qed.

(** X4 — In exact arithmetic two invoices add up: the table of a list of
    items followed by another has the item rows of both, in order, and
    its subtotal, its tax amount and its grand total are the sums of
    theirs (same currency and tax percentage). *)
Theorem invoices_add_up
  (a b : list (item Qc)) (currency : string) (tax_percentage : Qc) :
  exists la lb lab : locals Qc,
    invoice_table a currency tax_percentage = inr la /\
    invoice_table b currency tax_percentage = inr lb /\
    invoice_table (a ++ b) currency tax_percentage = inr lab /\
    total_amount lab = (total_amount la + total_amount lb)%Qc /\
    tax_amount lab = (tax_amount la + tax_amount lb)%Qc /\
    grand_total lab = (grand_total la + grand_total lb)%Qc /\
    item_rows_of (data lab) =
      (item_rows_of (data la) ++ item_rows_of (data lb))%list.
Proof.
  rewrite !invoice_table_closed, !all_fit_exact. cbv zeta.
  do 3 eexists. do 3 (split; [reflexivity |]).
  simpl. unfold summary_rows.
  rewrite !item_rows_of_table, !exact_subtotal.
  unfold line_totals. rewrite !map_app, Sigma_app.
  fold (line_totals a). fold (line_totals b).
  set (A := Sigma (line_totals a)). set (B := Sigma (line_totals b)).
  repeat split.
  - unfold Qcdiv. ring.
  - unfold Qcdiv. ring.
Qed.

(** X5 — In exact arithmetic the grand total is the subtotal marked up by
    the tax percentage: grand total = subtotal × (100 + tax) / 100. *)
Theorem grand_total_is_a_markup
  (items : list (item Qc)) (currency : string) (tax_percentage : Qc) :
  exists l : locals Qc,
    invoice_table items currency tax_percentage = inr l /\
    grand_total l =
      (total_amount l * (Fraction.frac_of_int 100 + tax_percentage)
       / Fraction.frac_of_int 100)%Qc.
Proof.
  rewrite invoice_table_closed, all_fit_exact. cbv zeta.
  eexists. split; [reflexivity |]. simpl.
  field. exact hundred_not_zero.
Qed.

(** X6 — In exact arithmetic, with a tax percentage of 0 the tax amount
    is 0, the grand total is the subtotal, and the Grand Total row shows
    the amount of the Subtotal row. *)
Theorem no_tax_no_markup (items : list (item Qc)) (currency : string) :
  exists l : locals Qc,
    invoice_table items currency (Fraction.frac_of_int 0) = inr l /\
    tax_amount l = Q2Qc 0 /\
    grand_total l = total_amount l /\
    closing_rows_of (data l) =
      [ [""; ""; "Subtotal:"; currency ++ " " ++ format_2f (total_amount l)];
        [""; ""; "Tax (0%):"; currency ++ " 0.00"];
        [""; ""; "Grand Total:";
         currency ++ " " ++ format_2f (total_amount l)] ].
Proof.
  rewrite invoice_table_closed, all_fit_exact. cbv zeta.
  set (T := running_sum (line_totals items) (of_int 0)).
  assert (Htax : div (mul T (Fraction.frac_of_int 0)) (of_int 100) = Q2Qc 0).
  { simpl. unfold Qcdiv. change (Fraction.frac_of_int 0) with (Q2Qc 0). ring. }
  assert (Hgrand : add T (Q2Qc 0) = T) by (simpl; ring).
  eexists. split; [reflexivity |].
  cbn [tax_amount grand_total total_amount data]. unfold summary_rows.
  rewrite closing_rows_of_table, Htax, Hgrand.
  repeat split.
Qed.

(** X7 — In exact arithmetic, for quantities and unit prices that are not
    negative and a tax percentage between 0 and 100: the subtotal is not
    negative, the tax amount lies between 0 and the subtotal, and the
    grand total lies between the subtotal and twice the subtotal. *)
Theorem valid_input_gives_ordered_totals
  (items : list (item Qc)) (currency : string) (tax_percentage : Qc) :
  Forall (fun it => (0 <= qty_of it)%Z /\ (0 <= price_of it)%Qc) items ->
  (0 <= tax_percentage)%Qc ->
  (tax_percentage <= Fraction.frac_of_int 100)%Qc ->
  exists l : locals Qc,
    invoice_table items currency tax_percentage = inr l /\
    (0 <= total_amount l)%Qc /\
    (0 <= tax_amount l)%Qc /\
    (tax_amount l <= total_amount l)%Qc /\
    (total_amount l <= grand_total l)%Qc /\
    (grand_total l <= total_amount l + total_amount l)%Qc.
Proof.
  intros Hitems Ht0 Ht100.
  rewrite invoice_table_closed, all_fit_exact. cbv zeta.
  eexists. split; [reflexivity |]. simpl. rewrite exact_subtotal.
  set (T := Sigma (line_totals items)).
  assert (HT : (0 <= T)%Qc).
  { apply Sigma_nonneg. unfold line_totals. apply Forall_map.
    eapply Forall_impl; [| exact Hitems].
    intros it [Hq Hp]. unfold line_total. simpl.
    apply Qc_mult_nonneg; [apply frac_of_int_nonneg |]; assumption. }
  assert (Htax0 : (0 <= T * tax_percentage / Fraction.frac_of_int 100)%Qc).
  { unfold Qcdiv. apply Qc_mult_nonneg; [| exact Qc_inv_hundred_nonneg].
    apply Qc_mult_nonneg; assumption. }
  assert (HtaxT : (T * tax_percentage / Fraction.frac_of_int 100 <= T)%Qc).
  { replace T with (T * Fraction.frac_of_int 100
                    / Fraction.frac_of_int 100)%Qc at 2
      by (field; exact hundred_not_zero).
    unfold Qcdiv. apply Qcmult_le_compat_r; [| exact Qc_inv_hundred_nonneg].
    rewrite (Qcmult_comm T tax_percentage),
            (Qcmult_comm T (Fraction.frac_of_int 100)).
    apply Qcmult_le_compat_r; assumption. }
  repeat split; try assumption.
  - replace T with (T + 0)%Qc at 1 by ring.
    apply Qcplus_le_compat; [apply Qcle_refl | exact Htax0].
  - apply Qcplus_le_compat; [apply Qcle_refl | exact HtaxT].
Qed.

(** ** Binary64 floats: no tax, and the quantities that convert *)

(** X8 — In binary64 arithmetic, when the quantities convert and the
    subtotal is finite, a tax percentage of 0.0 gives a tax amount that is
    a zero (shown as 0.00, or as -0.00 when the subtotal is negative) and
    a grand total equal to the subtotal, bit for bit. *)
Theorem float_no_tax_no_markup (items : list (item float))
  (currency : string) :
  all_fit items = true ->
  finite_float (running_sum (line_totals items) (of_int 0)) = true ->
  exists l : locals float,
    invoice_table items currency 0%float = inr l /\
    grand_total l = total_amount l /\
    (format_2f (tax_amount l) = "0.00" \/
     format_2f (tax_amount l) = "-0.00").
Proof.
  intros Hfit Hfin. rewrite invoice_table_closed, Hfit. cbv zeta.
  set (T := running_sum (line_totals items) (of_int 0)) in *.
  eexists. split; [reflexivity |].
  cbn [grand_total total_amount tax_amount].
  change (add T (div (mul T 0%float) (of_int 100)))
    with (T + T * 0 / Float64.float_of_int 100)%float.
  change (div (mul T 0%float) (of_int 100))
    with (T * 0 / Float64.float_of_int 100)%float.
  assert (H100 : exists m e,
             Prim2SF (Float64.float_of_int 100) = S754_finite false m e)
    by (do 2 eexists; vm_compute; reflexivity).
  destruct H100 as [m100 [e100 H100]].
  assert (H0 : Prim2SF 0%float = S754_zero false) by reflexivity.
  unfold finite_float in Hfin.
  assert (Htax : exists s,
             Prim2SF (T * 0 / Float64.float_of_int 100)%float = S754_zero s
             /\ SF64add (Prim2SF T) (S754_zero s) = Prim2SF T).
  { rewrite div_spec, mul_spec, H0, H100.
    destruct (Prim2SF T) as [s | s | | s m e]; try discriminate Hfin.
    - exists s. unfold SF64mul, SF64div, SF64add. simpl.
      destruct s; split; reflexivity.
    - exists s. unfold SF64mul, SF64div, SF64add. simpl.
      destruct s; split; reflexivity. }
  destruct Htax as [s [Htax Hadd]]. split.
  - apply Prim2SF_inj. rewrite add_spec, Htax. exact Hadd.
  - change (format_2f (T * 0 / Float64.float_of_int 100)%float)
      with (Float64.format_2f_float (T * 0 / Float64.float_of_int 100)%float).
    unfold Float64.format_2f_float. rewrite Htax.
    destruct s; [right | left]; reflexivity.
Qed.

(** X9 — In binary64 arithmetic a call whose quantities are at most 2^53
    in absolute value, with no logo or with one that can be read, returns
    its page, whatever the prices, the tax percentage, the texts and the
    clock: the arithmetic never raises. *)
Theorem float_call_returns (A4 : Q * Q) (readable_image : string -> bool)
  (company_name customer_name customer_email : string)
  (items : list (item float)) (currency : string) (tax_percentage : float)
  (logo_path : option string) (w : world) :
  Forall (fun it => (Z.abs (qty_of it) <= 2 ^ 53)%Z) items ->
  logo_readable readable_image logo_path = true ->
  exists (doc : document) (w' : world),
    generate_invoice A4 readable_image company_name customer_name
                     customer_email items currency tax_percentage
                     logo_path w = inr (doc, w').
Proof.
  intros Hsmall Hlogo.
  destruct (generate_invoice_returns A4 readable_image company_name
              customer_name customer_email items currency tax_percentage
              logo_path w (small_quantities_fit_float items Hsmall) Hlogo)
    as [l [_ Hgen]].
  rewrite Hgen. do 2 eexists. reflexivity.
Qed.

(** X14 — In binary64 arithmetic a call with a quantity of 2^1024 - 2^970
    or more in absolute value returns no page, whatever the price of that
    item, zero included, and whatever the other items: it raises
    [OverflowError], unless a logo is given that cannot be read, which
    raises [OSError] before the items are looked at. *)
Theorem float_call_overflows (A4 : Q * Q) (readable_image : string -> bool)
  (company_name customer_name customer_email : string)
  (items : list (item float)) (currency : string) (tax_percentage : float)
  (logo_path : option string) (w : world) :
  Exists (fun it => (2 ^ 1024 - 2 ^ 970 <= Z.abs (qty_of it))%Z) items ->
  generate_invoice A4 readable_image company_name customer_name
                   customer_email items currency tax_percentage
                   logo_path w =
  inl (if logo_readable readable_image logo_path
       then OverflowError else OSError).
Proof.
  intros Hbig. rewrite generate_invoice_closed, invoice_table_closed.
  destruct (logo_readable readable_image logo_path); [| reflexivity].
  destruct (all_fit items) eqn:Hfit; [| reflexivity].
  exfalso. apply Exists_exists in Hbig. destruct Hbig as [it [Hin Hit]].
  unfold all_fit in Hfit. rewrite forallb_forall in Hfit.
  specialize (Hfit it Hin). apply Z.ltb_lt in Hfit. lia.
Qed.

(** ** The page: border, logo, footer, and where the table goes *)

Section MorePageFacts.

Context {num : Type} `{PyNumber num}.
Variable A4 : Q * Q.
Variable readable_image : string -> bool.

(** X10 — On a returned page an image is drawn exactly when a logo path
    is given and is not empty; it is then that path, at (50, 550), 100
    wide and 50 high, and its file could be read.  No other image is ever
    drawn.  A call that raises does so with [OSError], for a logo that is
    given and cannot be read, or else with [OverflowError], for a
    quantity that does not convert. *)
Theorem logo_drawn_iff_given
  (company_name customer_name customer_email : string)
  (items : list (item num)) (currency : string) (tax_percentage : num)
  (logo_path : option string) (w : world) :
  match generate_invoice A4 readable_image company_name customer_name
                         customer_email items currency tax_percentage
                         logo_path w with
  | inr (doc, _) =>
      logo_readable readable_image logo_path = true /\
      forall (p : string) (x y width height : Z),
        In (drawImage p x y width height) doc <->
        (logo_path = Some p /\ p <> "" /\
         x = 50%Z /\ y = 550%Z /\ width = 100%Z /\ height = 50%Z)
  | inl e =>
      (e = OSError /\ logo_readable readable_image logo_path = false) \/
      (e = OverflowError /\
       logo_readable readable_image logo_path = true /\
       all_fit items = false)
  end.
Proof.
  rewrite generate_invoice_closed, invoice_table_closed.
  destruct (logo_readable readable_image logo_path);
    [destruct (all_fit items) |]; cbv beta iota zeta; auto.
  split; [reflexivity |].
  intros p x y width height. unfold page. rewrite !in_app_iff. split.
  - intros [Hin | [Hin | Hin]].
    + simpl in Hin. repeat (destruct Hin as [Hin | Hin]; [discriminate Hin |]).
      contradiction.
    + destruct logo_path as [q |]; [| contradiction].
      destruct (truthy (Some q)) eqn:Hq; [| contradiction].
      destruct Hin as [Hin | []]. injection Hin as -> <- <- <- <-.
      repeat split. unfold truthy in Hq.
      apply Bool.negb_true_iff in Hq. apply String.eqb_neq. exact Hq.
    + simpl in Hin. repeat (destruct Hin as [Hin | Hin]; [discriminate Hin |]).
      contradiction.
  - intros (-> & Hp & -> & -> & -> & ->). right. left.
    assert (Hq : truthy (Some p) = true).
    { unfold truthy. apply Bool.negb_true_iff. apply String.eqb_neq. exact Hp. }
    rewrite Hq. left. reflexivity.
Qed.

(** X11 — Every returned page starts with the same three calls, which
    draw the border, and ends with the same three calls, which draw the
    two footer lines at heights 70 and 50: neither depends on the items,
    on their number or on any other argument.  In between come the logo,
    if any, and twelve more calls, so a page has 15 calls, or 16 with a
    logo.  A call that raises does so with [OSError], for a logo that is
    given and cannot be read, or else with [OverflowError], for a
    quantity that does not convert. *)
Theorem border_first_footer_last
  (company_name customer_name customer_email : string)
  (items : list (item num)) (currency : string) (tax_percentage : num)
  (logo_path : option string) (w : world) :
  match generate_invoice A4 readable_image company_name customer_name
                         customer_email items currency tax_percentage
                         logo_path w with
  | inr (doc, _) =>
      firstn 3 doc =
        [ setStrokeColor black; setLineWidth 2;
          rect 40 40 (fst A4 - inject_Z 50 - 50)%Q 570 ] /\
      skipn (length doc - 3) doc =
        [ setFont "Helvetica" 10;
          drawString 50 70 "Thank you for your business!";
          drawString 50 50
            "Terms & Conditions: Payment due within 30 days." ] /\
      length doc = if truthy logo_path then 16%nat else 15%nat
  | inl e =>
      (e = OSError /\ logo_readable readable_image logo_path = false) \/
      (e = OverflowError /\
       logo_readable readable_image logo_path = true /\
       all_fit items = false)
  end.
Proof.
  rewrite generate_invoice_closed, invoice_table_closed.
  destruct (logo_readable readable_image logo_path);
    [destruct (all_fit items) |]; cbv beta iota zeta; auto.
  unfold page.
  destruct logo_path as [p |]; [destruct (truthy (Some p)) |];
    repeat split.
Qed.

(** Where the table goes, by the number of items: 20 points lower for
    each item, from 350; at 150 or above for at most 10 items. *)
Lemma table_y_bounds (items : list (item num)) :
  table_y items = (350 - 20 * Z.of_nat (length items))%Z /\
  (table_y items <= 350)%Z /\
  ((length items <= 10)%nat -> (150 <= table_y items)%Z).
Proof.
  unfold table_y, top_margin. repeat split; intros; lia.
Qed.

End MorePageFacts.

(** ** The form and the Generate button *)

Section FormFacts.

Context {num : Type} `{PyNumber num}.
Variable A4 : Q * Q.
Variable decodes : list Byte.byte -> bool.
Variable readable_image : string -> bool.

Lemma collect_from_closed (f : form num) (count : nat) :
  forall (i : nat) (items : list (item num)),
    collect_from f i count items =
    (items ++ map (widget_item f) (seq i count))%list.
Proof.
  induction count as [| k IH]; intros i items; simpl.
  - rewrite app_nil_r. reflexivity.
  - rewrite IH. unfold py_append, widget_item.
    rewrite <- app_assoc. reflexivity.
Qed.

Lemma collect_items_closed (f : form num) :
  collect_items f = map (widget_item f) (seq 0 (f_num_items f)).
Proof. unfold collect_items. rewrite collect_from_closed. reflexivity. Qed.

(** The file just written is readable exactly when the upload decodes. *)
Lemma saved_logo_readable (content : list Byte.byte) :
  logo_readable (after_saving decodes readable_image content)
                (Some "temp_logo.png") = decodes content.
Proof. reflexivity. Qed.

(** X12 — What pressing the button leads to.  A download is offered
    exactly when the button is pressed, the customer name and the
    customer email are both filled in, the uploaded logo, if any, decodes
    as an image, and every quantity converts.  The uploaded logo is
    written to a file exactly when the button is pressed, both fields are
    filled in and a logo was uploaded, also when the invoice then fails.
    When the button is pressed with one of the two fields empty, the one
    effect is the error message, and the clock is not read.  When it is
    pressed with both fields filled in and an upload that does not decode,
    the upload is written to [temp_logo.png] and the run ends with
    [OSError]: no message, no download. *)
Theorem button_outcomes (f : form num) (w : world) :
  let details :=
    (nonempty (f_customer_name f) && nonempty (f_customer_email f))%bool in
  let run := on_generate_click A4 decodes readable_image f w in
  offers_download (fst run) =
    (f_button f && details && upload_ok decodes f &&
     all_fit (collect_items f))%bool /\
  writes_a_file (fst run) =
    (f_button f && details &&
     match f_logo f with Some _ => true | None => false end)%bool /\
  (f_button f = true -> details = false ->
   run = ([st_error "Please enter customer details."], inr w)) /\
  (f_button f = true -> details = true -> upload_ok decodes f = false ->
   exists content : list Byte.byte,
     f_logo f = Some content /\
     run = ([write_file "temp_logo.png" content], inl OSError)).
Proof.
  cbv zeta. unfold on_generate_click, upload_ok.
  destruct (f_button f);
    destruct (nonempty (f_customer_name f) &&
              nonempty (f_customer_email f))%bool;
    destruct (f_logo f) as [content |];
    cbv beta iota zeta;
    try rewrite generate_invoice_closed;
    try rewrite saved_logo_readable;
    try rewrite invoice_table_closed;
    try destruct (decodes content);
    destruct (all_fit (collect_items f)); cbv beta iota zeta; simpl;
    repeat split; intros; try reflexivity; try discriminate.
  all: eexists; split; reflexivity.
Qed.

(** X13 — When the button is pressed with both customer fields filled in,
    an uploaded logo, if any, that decodes as an image, quantities that
    convert and at most 10 items (the largest number the form accepts),
    the effects are: the logo file written, if a logo was uploaded; the
    success message; and one download, named invoice.pdf, of the page
    [generate_invoice] returns.  On that page the item rows are those of
    the widget rows, in index order; the table is drawn at a height
    between 150 and 350, above the footer and the bottom margin; and the
    logo, if uploaded, is drawn from the file just written.  The clock is
    read twice. *)
Theorem download_is_the_invoice (f : form num) (w : world) :
  f_button f = true ->
  f_customer_name f <> "" ->
  f_customer_email f <> "" ->
  upload_ok decodes f = true ->
  all_fit (collect_items f) = true ->
  (f_num_items f <= 10)%nat ->
  exists (doc : document) (w' : world) (rows : list (list string)) (y : Z),
    on_generate_click A4 decodes readable_image f w =
      ((match f_logo f with
        | Some content => [write_file "temp_logo.png" content]
        | None => []
        end ++
        [ st_success "Invoice generated successfully!";
          st_download_button "📥 Download Invoice" doc
                             "invoice.pdf" "application/pdf" ])%list,
       inr w') /\
    reads w' = (reads w + 2)%nat /\
    In (drawOn (invoice_Table rows) 50 y) doc /\
    (150 <= y <= 350)%Z /\
    item_rows_of rows =
      map (fun i => item_row (widget_item f i)) (seq 0 (f_num_items f)) /\
    (forall content, f_logo f = Some content ->
       In (drawImage "temp_logo.png" 50 550 100 50) doc).
Proof.
  intros Hbutton Hname Hemail Hupload Hfit Hcount.
  unfold on_generate_click. rewrite Hbutton.
  assert (Hdetails : (nonempty (f_customer_name f) &&
                      nonempty (f_customer_email f))%bool = true).
  { unfold nonempty. apply andb_true_intro.
    split; apply Bool.negb_true_iff; apply String.eqb_neq; assumption. }
  rewrite Hdetails. cbv zeta.
  destruct (table_y_bounds (collect_items f)) as [_ [Hup Hlow]].
  assert (Hy : (150 <= table_y (collect_items f) <= 350)%Z).
  { split; [apply Hlow | exact Hup].
    rewrite collect_items_closed, length_map, length_seq. exact Hcount. }
  unfold upload_ok in Hupload.
  destruct (f_logo f) as [content |].
  - rewrite generate_invoice_closed, saved_logo_readable, Hupload.
    rewrite invoice_table_closed, Hfit. cbv beta iota zeta.
    do 4 eexists. split; [reflexivity |].
    split; [simpl; lia |]. split; [apply table_on_page |].
    split; [exact Hy |]. split.
    { cbn [data]. unfold summary_rows. rewrite item_rows_of_table.
      rewrite collect_items_closed, map_map. reflexivity. }
    intros content' _. unfold page.
    apply in_or_app. right. apply in_or_app. left.
    left. reflexivity.
  - rewrite generate_invoice_closed. cbn [logo_readable].
    rewrite invoice_table_closed, Hfit. cbv beta iota zeta.
    do 4 eexists. split; [reflexivity |].
    split; [simpl; lia |]. split; [apply table_on_page |].
    split; [exact Hy |]. split.
    { cbn [data]. unfold summary_rows. rewrite item_rows_of_table.
      rewrite collect_items_closed, map_map. reflexivity. }
    intros content' Hnone. discriminate Hnone.
Qed.

End FormFacts.

(** ** The further properties at concrete inputs *)

(** X3 at the items of the example. *)
Lemma style_rows_witness :
  all_fit widget_gadget = true /\
  exists l : locals float,
    invoice_table widget_gadget "$" 18%float = inr l /\
    let n := Z.of_nat (length widget_gadget) in
    map (rows_spanned (Z.of_nat (length (data l))))
        (style (invoice_Table (data l))) =
      [ (0, 0); (0, 0); (0, n + 3); (0, 0); (0, 0);
        (1, n + 1); (0, n + 3); (0, 0);
        (n + 1, n + 1); (n + 3, n + 3) ]%Z /\
    nth_error (data l) (length widget_gadget + 1) =
      Some [""; ""; "Subtotal:"; "$" ++ " " ++ format_2f (total_amount l)] /\
    nth_error (data l) (length widget_gadget + 3) =
      Some [""; ""; "Grand Total:";
            "$" ++ " " ++ format_2f (grand_total l)].
Proof.
  split; [reflexivity |].
  exact (style_rows widget_gadget "$" 18%float eq_refl).
Defined.

(** X7 at 3 cables at 19.99 and 1 screw at 0.05, with 18 percent tax. *)
Lemma valid_input_gives_ordered_totals_witness :
  exists l : locals Qc,
    invoice_table valid_exact_items "$" (Fraction.frac_of_int 18) = inr l /\
    (0 <= total_amount l)%Qc /\
    (0 <= tax_amount l)%Qc /\
    (tax_amount l <= total_amount l)%Qc /\
    (total_amount l <= grand_total l)%Qc /\
    (grand_total l <= total_amount l + total_amount l)%Qc.
Proof.
  apply (valid_input_gives_ordered_totals valid_exact_items "$"
           (Fraction.frac_of_int 18)).
  - repeat constructor; vm_compute; discriminate.
  - vm_compute. discriminate.
  - vm_compute. discriminate.
Defined.

(** X8 at the items of the example. *)
Lemma float_no_tax_no_markup_witness :
  exists l : locals float,
    invoice_table widget_gadget "$" 0%float = inr l /\
    grand_total l = total_amount l /\
    (format_2f (tax_amount l) = "0.00" \/
     format_2f (tax_amount l) = "-0.00").
Proof.
  apply (float_no_tax_no_markup widget_gadget "$"); reflexivity.
Defined.

(** X9 at the items of the example, with a logo that is on the disk. *)
Lemma float_call_returns_witness :
  exists (doc : document) (w' : world),
    generate_invoice A4_points logo_on_disk "Acme" "Ann" "ann@example.org"
                     widget_gadget "$" 18%float (Some "logo.png")
                     midnight_clock = inr (doc, w').
Proof.
  apply float_call_returns.
  - repeat constructor; vm_compute; discriminate.
  - reflexivity.
Defined.

(** X13 at the filled form, whose upload is a PNG file of one pixel, with
    a decoder that accepts it. *)
Lemma download_is_the_invoice_witness :
  exists (doc : document) (w' : world) (rows : list (list string)) (y : Z),
    on_generate_click A4_points decodes_tiny_png no_images filled_form
                      midnight_clock =
      ((match f_logo filled_form with
        | Some content => [write_file "temp_logo.png" content]
        | None => []
        end ++
        [ st_success "Invoice generated successfully!";
          st_download_button "📥 Download Invoice" doc
                             "invoice.pdf" "application/pdf" ])%list,
       inr w') /\
    reads w' = (reads midnight_clock + 2)%nat /\
    In (drawOn (invoice_Table rows) 50 y) doc /\
    (150 <= y <= 350)%Z /\
    item_rows_of rows =
      map (fun i => item_row (widget_item filled_form i))
          (seq 0 (f_num_items filled_form)) /\
    (forall content, f_logo filled_form = Some content ->
       In (drawImage "temp_logo.png" 50 550 100 50) doc).
Proof.
  apply (download_is_the_invoice A4_points decodes_tiny_png no_images
           filled_form midnight_clock).
  - reflexivity.
  - discriminate.
  - discriminate.
  - reflexivity.
  - reflexivity.
  - simpl. lia.
Defined.

(** X14 at one free item in a quantity of 2^1024, without a logo. *)
Lemma float_call_overflows_witness :
  generate_invoice A4_points no_images "Acme" "Ann" "ann@example.org"
                   [("Air", (2 ^ 1024)%Z, 0%float)] "$" 18%float None
                   midnight_clock = inl OverflowError.
Proof.
  apply (float_call_overflows A4_points no_images "Acme" "Ann"
           "ann@example.org" [("Air", (2 ^ 1024)%Z, 0%float)] "$"
           18%float None midnight_clock).
  apply Exists_cons_hd. vm_compute. discriminate.
Defined.

(** ** The logo that cannot be read, at concrete inputs *)

(** A logo path with no image behind it ends the call with [OSError],
    also for items that would otherwise give a page, and before a
    quantity that does not convert is met. *)
Example unreadable_logo_raises :
  generate_invoice A4_points no_images "Acme" "Ann" "ann@example.org"
                   widget_gadget "$" 18%float (Some "missing.png")
                   midnight_clock = inl OSError /\
  generate_invoice A4_points no_images "Acme" "Ann" "ann@example.org"
                   [("Air", (2 ^ 1024)%Z, 0%float)] "$" 18%float
                   (Some "missing.png") midnight_clock = inl OSError /\
  generate_invoice A4_points no_images "Acme" "Ann" "ann@example.org"
                   [("Air", (2 ^ 1024)%Z, 0%float)] "$" 18%float
                   (Some "") midnight_clock = inl OverflowError.
Proof. repeat split; vm_compute; reflexivity. Qed.

(** An upload that is not an image (here the four bytes of the PNG
    signature's start) is written to the disk, and the run ends with
    [OSError]: nothing is offered. *)
Example corrupt_upload_raises :
  on_generate_click A4_points decodes_tiny_png no_images
    {| f_company_name := "Acme";
       f_customer_name := "Ann";
       f_customer_email := "ann@example.org";
       f_currency := "$";
       f_tax_percentage := 18%float;
       f_logo := Some [Byte.x89; Byte.x50; Byte.x4e; Byte.x47];
       f_num_items := 2;
       f_item_name := f_item_name filled_form;
       f_qty := f_qty filled_form;
       f_price := f_price filled_form;
       f_button := true |}
    midnight_clock =
  ([write_file "temp_logo.png" [Byte.x89; Byte.x50; Byte.x4e; Byte.x47]],
   inl OSError).
Proof. vm_compute. reflexivity. Qed.
